(** * Sampler-logger loop of the spectrum-analyzer monitor

    A shallow embedding of [SpectrumAnalyzerApp] (src/spectrum_try3.py and
    src/spectrum_try4.py, whose [update_plot], [pause_updates],
    [resume_updates] and [reset_parameters] are textually identical), with
    the instrument session, the file system, the plot surface and the
    dialogs kept as an explicit chronological log of calls, and the Python
    builtins the code relies on ([str.join], [str.split], float division,
    [format(x, '.Nf')], [repr(float)], [strftime], buffered text files)
    modelled next to it. *)

From Stdlib Require Import ZArith List String Ascii Bool Lia.
From Stdlib Require Import Numbers.DecimalString Numbers.DecimalN.
From Stdlib Require Import Floats.SpecFloat.
Import ListNotations.

Local Open Scope string_scope.
Local Open Scope Z_scope.

(* ===================================================================== *)
(** * Python strings *)
(* ===================================================================== *)

Module Str.

(** The line feed written by ["\n"]. *)
Definition LF : ascii := "010"%char.

Definition nl : string := String LF "".

(** [sep.join(parts)] *)
Definition join (sep : string) (parts : list string) : string :=
  String.concat sep parts.

(** [s.split(c)] for a one-character separator. *)
Fixpoint split_on (c : ascii) (s : string) : list string :=
  match s with
  | "" => [""]
  | String a rest =>
      if Ascii.eqb a c then "" :: split_on c rest
      else match split_on c rest with
           | [] => [String a ""]
           | w :: ws => String a w :: ws
           end
  end.

(** [all(f(ch) for ch in s)] *)
Fixpoint every (f : ascii -> bool) (s : string) : bool :=
  match s with
  | "" => true
  | String a rest => f a && every f rest
  end.

(** [c not in s] *)
Definition lacks (c : ascii) (s : string) : bool :=
  every (fun a => negb (Ascii.eqb a c)) s.

(** [s.endswith(t)] *)
Fixpoint endswith (s t : string) : bool :=
  if String.eqb s t then true
  else match s with
       | "" => false
       | String _ rest => endswith rest t
       end.

Definition is_digit (a : ascii) : bool :=
  let n := nat_of_ascii a in (48 <=? n)%nat && (n <=? 57)%nat.

Definition all_digits (s : string) : bool := every is_digit s.

Fixpoint span_digits (s : string) : string * string :=
  match s with
  | "" => ("", "")
  | String a rest =>
      if is_digit a
      then let '(d, r) := span_digits rest in (String a d, r)
      else ("", s)
  end.

(** Recogniser of fixed-point numerals with exactly [p] fractional digits:
    an optional minus sign, one or more digits, a point and [p] digits
    (the regular expression [-?[0-9]+[.][0-9]{p}]). *)
Definition has_decimals (p : nat) (s : string) : bool :=
  let body := match s with
              | String a rest => if Ascii.eqb a "-" then rest else s
              | "" => s
              end in
  let '(ip, rest) := span_digits body in
  match rest with
  | String a fp =>
      Ascii.eqb a "." && negb (String.eqb ip "") && all_digits fp &&
      Nat.eqb (String.length fp) p
  | "" => false
  end.

(** [s.startswith('-')] *)
Definition has_minus (s : string) : bool :=
  match s with
  | String a _ => Ascii.eqb a "-"
  | "" => false
  end.

Definition digit_value (a : ascii) : Z := Z.of_nat (nat_of_ascii a) - 48.

(** The number that the digits of [s] write in base ten, read from the
    left, the other characters skipped: 5012 for ["-50.12"]. *)
Fixpoint digits_from (acc : Z) (s : string) : Z :=
  match s with
  | "" => acc
  | String a rest =>
      digits_from (if is_digit a then 10 * acc + digit_value a else acc) rest
  end.

Definition digits_value (s : string) : Z := digits_from 0 s.

(** The characters of float numerals: digits, signs, the point, the
    exponent letter and the letters of [inf] and [nan]. *)
Definition numeral_char (a : ascii) : bool :=
  is_digit a || negb (lacks a "-+.einfa").

(** The characters of a timestamp. *)
Definition stamp_char (a : ascii) : bool :=
  is_digit a || negb (lacks a "-: ").

(** [ch * n] for a one-character string. *)
Fixpoint replicate (n : nat) (a : ascii) : string :=
  match n with
  | O => ""
  | S k => String a (replicate k a)
  end.

Fixpoint take (n : nat) (s : string) : string :=
  match n, s with
  | S k, String a rest => String a (take k rest)
  | _, _ => ""
  end.

Fixpoint drop (n : nat) (s : string) : string :=
  match n, s with
  | S k, String _ rest => drop k rest
  | _, _ => s
  end.

End Str.

(* ===================================================================== *)
(** * Python floats (IEEE 754 binary64) and their text forms *)
(* ===================================================================== *)

Module PyFloat.

Definition float : Type := spec_float.

Definition prec : Z := 53.
Definition emax : Z := 1024.

(** A literal with an integral value, such as [1e6] or [1000.0]. *)
Definition of_Z (z : Z) : float := binary_normalize prec emax z 0 false.

(** [x / y] for a non-zero constant [y], and [x * y]. *)
Definition div (x y : float) : float := SFdiv prec emax x y.
Definition mul (x y : float) : float := SFmul prec emax x y.

Definition is_finite (x : float) : bool :=
  match x with
  | S754_zero _ | S754_finite _ _ _ => true
  | S754_infinity _ | S754_nan => false
  end.

(** The sign bit: [math.copysign(1.0, x) < 0]. *)
Definition negative (x : float) : bool :=
  match x with
  | S754_zero s | S754_infinity s | S754_finite s _ _ => s
  | S754_nan => false
  end.

(** The absolute value of a finite float as the exact fraction
    [numerator x / denominator x], a power of two below. *)
Definition numerator (x : float) : Z :=
  match x with
  | S754_finite _ m e => Zpos m * 2 ^ Z.max e 0
  | _ => 0
  end.

Definition denominator (x : float) : Z :=
  match x with
  | S754_finite _ _ e => 2 ^ Z.max (- e) 0
  | _ => 1
  end.

Definition digit_char (d : Z) : ascii :=
  match Z.to_nat d with
  | 0%nat => "0" | 1%nat => "1" | 2%nat => "2" | 3%nat => "3" | 4%nat => "4"
  | 5%nat => "5" | 6%nat => "6" | 7%nat => "7" | 8%nat => "8" | _ => "9"
  end%char.

(** Decimal numeral of a natural number, no leading zeros (["0"] for 0). *)
Definition dec (n : Z) : string :=
  NilZero.string_of_uint (N.to_uint (Z.to_N n)).

(** The last [p] decimal digits of [n], zero-padded on the left. *)
Fixpoint dec_fixed (p : nat) (n : Z) : string :=
  match p with
  | O => ""
  | S k => dec_fixed k (n / 10) ++ String (digit_char (n mod 10)) ""
  end.

(** Nearest integer to [n / d] ([d > 0]), ties to even. *)
Definition round_half_even (n d : Z) : Z :=
  let q := n / d in
  match (2 * (n mod d)) ?= d with
  | Lt => q
  | Gt => q + 1
  | Eq => if Z.even q then q else q + 1
  end.

(** [m * 2^e * 10^p] rounded to the nearest integer, ties to even: the
    digits that correctly rounded fixed-point output prints. *)
Definition scaled (p : nat) (m : positive) (e : Z) : Z :=
  match e with
  | Zneg k => round_half_even (Zpos m * 10 ^ Z.of_nat p) (2 ^ Zpos k)
  | _ => Zpos m * 2 ^ e * 10 ^ Z.of_nat p
  end.

Definition sign_str (s : bool) : string := if s then "-" else "".

Definition fixed_point (p : nat) (q : Z) : string :=
  dec (q / 10 ^ Z.of_nat p) ++
  match p with
  | O => ""
  | S _ => "." ++ dec_fixed p q
  end.

(** [format(x, '.pf')], as in the f-string fields [{x:.6f}]. *)
Definition format_f (p : nat) (x : float) : string :=
  match x with
  | S754_nan => "nan"
  | S754_infinity s => sign_str s ++ "inf"
  | S754_zero s => sign_str s ++ fixed_point p 0
  | S754_finite s m e => sign_str s ++ fixed_point p (scaled p m e)
  end.

(** ** [repr(float)]: the shortest numeral that reads back as the same float *)

(** One step of the digit search at decimal position [k]. The float is
    [V/D], and the reals that round to it lie between [L/D] and [H/D]
    (bounds included when [incl]). Returns [Some d] when [d * 10^k] is the
    multiple of [10^k] nearest to the float that lies in that interval. *)
Definition candidate (incl : bool) (V L H D k : Z) : option Z :=
  let up := 10 ^ Z.max k 0 in
  let dn := 10 ^ Z.max (- k) 0 in
  let P := D * up in
  let V' := V * dn in
  let L' := L * dn in
  let H' := H * dn in
  let d := V' / P in
  let c1 := d * P in
  let c2 := (d + 1) * P in
  let ok1 := (0 <? d) && (if incl then L' <=? c1 else L' <? c1) in
  let ok2 := if incl then c2 <=? H' else c2 <? H' in
  match ok1, ok2 with
  | true, true =>
      match (V' - c1) ?= (c2 - V') with
      | Lt => Some d
      | Gt => Some (d + 1)
      | Eq => Some (if Z.even d then d else d + 1)
      end
  | true, false => Some d
  | false, true => Some (d + 1)
  | false, false => None
  end.

(** Positions are tried from the most significant one downwards; the first
    position with a candidate gives the fewest digits. *)
Fixpoint shortest_from (fuel : nat) (incl : bool) (V L H D k : Z) : Z * Z :=
  match candidate incl V L H D k with
  | Some d => (d, k)
  | None =>
      match fuel with
      | O => (V / D, 0)
      | S fuel' => shortest_from fuel' incl V L H D (k - 1)
      end
  end.

(** Digits [d] and exponent [k] with [repr] printing [d * 10^k], for the
    positive float [m * 2^e]. The interval of reals rounding to it reaches
    half a unit in the last place on each side, and only a quarter below
    when [m] is the smallest normal mantissa above the subnormal range. *)
Definition shortest (m : positive) (e : Z) : Z * Z :=
  let s := 2 ^ Z.max e 0 in
  let D := 4 * 2 ^ Z.max (- e) 0 in
  let V := 4 * Zpos m * s in
  let below :=
    if (Zpos m =? 2 ^ (prec - 1)) && (emin prec emax <? e) then s else 2 * s in
  let bits := Z.log2 (Zpos m) + 1 + e in
  let k0 := (if 0 <=? bits then bits * 30103 else bits * 30102) / 100000 + 2 in
  shortest_from (Pos.to_nat (Pos.size m) + 30) (Z.even (Zpos m))
    V (V - below) (V + 2 * s) D k0.

Definition exponent_str (x : Z) : string :=
  (if x <? 0 then "-" else "+") ++
  (if Z.abs x <? 10 then "0" else "") ++ dec (Z.abs x).

(** Layout of [repr]: positional notation when the decimal point falls
    within [-4 < decpt <= 16], with [.0] added to integral values, and
    exponent notation otherwise. *)
Definition repr_digits (ds : string) (k : Z) : string :=
  let n := Z.of_nat (String.length ds) in
  let decpt := n + k in
  if (-4 <? decpt) && (decpt <=? 16) then
    if decpt <=? 0 then
      "0." ++ Str.replicate (Z.to_nat (- decpt)) "0" ++ ds
    else if decpt <? n then
      Str.take (Z.to_nat decpt) ds ++ "." ++ Str.drop (Z.to_nat decpt) ds
    else
      ds ++ Str.replicate (Z.to_nat (decpt - n)) "0" ++ ".0"
  else
    Str.take 1 ds ++
    (if 1 <? n then "." ++ Str.drop 1 ds else "") ++
    "e" ++ exponent_str (decpt - 1).

(** [repr(x)], which is also [str(x)] and the text of a bare f-string
    field [{x}]. *)
Definition repr (x : float) : string :=
  match x with
  | S754_nan => "nan"
  | S754_infinity s => sign_str s ++ "inf"
  | S754_zero s => sign_str s ++ "0.0"
  | S754_finite s m e =>
      let '(d, k) := shortest m e in
      sign_str s ++ repr_digits (dec d) k
  end.

End PyFloat.

(* ===================================================================== *)
(** * The clock *)
(* ===================================================================== *)

Module Clock.

(** A [datetime.datetime], to the second. *)
Record datetime : Type := {
  year : Z;
  month : Z;
  day : Z;
  hour : Z;
  minute : Z;
  second : Z
}.

(** [t.strftime('%Y-%m-%d %H:%M:%S')]: zero-padded decimal fields, four
    digits for the year. *)
Definition strftime (t : datetime) : string :=
  PyFloat.dec_fixed 4 (year t) ++ "-" ++ PyFloat.dec_fixed 2 (month t) ++ "-" ++
  PyFloat.dec_fixed 2 (day t) ++ " " ++ PyFloat.dec_fixed 2 (hour t) ++ ":" ++
  PyFloat.dec_fixed 2 (minute t) ++ ":" ++ PyFloat.dec_fixed 2 (second t).

End Clock.

(* ===================================================================== *)
(** * The program's world: exceptions, external calls, state *)
(* ===================================================================== *)

Module Sys.

Import PyFloat.

(** A raised exception object; [exc_str] is [str(e)]. The exceptions of
    the model are those that derive from [Exception], the ones the
    collaborators raise to report an error ([pyvisa.VisaIOError],
    [ValueError], [OSError], ...); a [KeyboardInterrupt] or [SystemExit]
    arriving during a callback is not one of them. *)
Record exc : Type := { exc_type : string; exc_str : string }.

Inductive res (A : Type) : Type :=
| Ok (a : A)
| Raise (e : exc).

Arguments Ok {A} a.
Arguments Raise {A} e.

(** [self.ax] once created by [self.fig.add_subplot(111)]. *)
Inductive axes : Type := Subplot111.

(** The calls the program makes on its collaborators. *)
Inductive call : Type :=
| SaQueryAsciiValues (cmd : string)  (* self.sa.query_ascii_values(cmd) *)
| SaQuery (cmd : string)             (* float(self.sa.query(cmd)) *)
| SaWrite (cmd : string)             (* self.sa.write(cmd) *)
| FileOpen (path mode : string)      (* open(path, mode) *)
| FileWrite (data : string)          (* file.write(data) *)
| FileClose                          (* leaving the with block *)
| FigAddSubplot (n : Z)              (* self.fig.add_subplot(n) *)
| AxClear
| AxPlot (ys : list float)
| AxSetXlabel (s : string)
| AxSetYlabel (s : string)
| AxSetTitle (s : string)
| AxGrid (b : bool)
| CanvasDraw
| StdoutPrint (s : string)             (* print(s) *)
| MsgCritical (title text : string)     (* QMessageBox.critical *)
| MsgInformation (title text : string). (* QMessageBox.information *)

(** A call together with the exception it raised, if any. *)
Record event : Type := { ev_call : call; ev_raised : option exc }.

Definition done (c : call) : event := {| ev_call := c; ev_raised := None |}.
Definition failed (c : call) (e : exc) : event :=
  {| ev_call := c; ev_raised := Some e |}.

(** What the collaborators answer during one callback. A query answers a
    value or raises ([pyvisa.VisaIOError] from the session, [ValueError]
    from the [float] conversion of the reply); the other calls succeed
    ([None]) or raise. The log file is buffered: [os_flushed] is the
    number of characters of the text handed to it that reach the disk
    when a write or the closing raises. *)
Record env : Type := {
  sa_query_ascii_values : string -> res (list float);
  sa_query_float : string -> res float;
  sa_write : string -> option exc;
  now : Clock.datetime;
  os_open : string -> string -> option exc;
  os_write : string -> option exc;
  os_close : option exc;
  os_flushed : nat;
  mpl : call -> option exc
}.

(** The widget's attributes, the log file and the history of calls. *)
Record state : Type := {
  pause : bool;            (* self.pause *)
  ax : option axes;        (* self.ax *)
  rfi : option string;     (* the file at rfi_file_path; None when absent *)
  log : list event         (* oldest first *)
}.

Definition set_pause (b : bool) (s : state) : state :=
  {| pause := b; ax := ax s; rfi := rfi s; log := log s |}.

Definition set_ax (a : option axes) (s : state) : state :=
  {| pause := pause s; ax := a; rfi := rfi s; log := log s |}.

Definition set_rfi (f : option string) (s : state) : state :=
  {| pause := pause s; ax := ax s; rfi := f; log := log s |}.

Definition emit (ev : event) (s : state) : state :=
  {| pause := pause s; ax := ax s; rfi := rfi s; log := log s ++ [ev] |}.

(** The text of the log file, empty when the file does not exist. *)
Definition contents (s : state) : string :=
  match rfi s with
  | Some text => text
  | None => ""
  end.

(** ** Computations: read the answers, thread the state, may raise *)

Definition M (A : Type) : Type := env -> state -> res A * state.

Definition ret {A} (a : A) : M A := fun _ s => (Ok a, s).

Definition bind {A B} (m : M A) (k : A -> M B) : M B :=
  fun E s =>
    match m E s with
    | (Ok a, s') => k a E s'
    | (Raise e, s') => (Raise e, s')
    end.

(** [try: body except Exception as e: handler(e)], for the exceptions of
    the model, which all derive from [Exception]. *)
Definition try_except {A} (body : M A) (handler : exc -> M A) : M A :=
  fun E s =>
    match body E s with
    | (Ok a, s') => (Ok a, s')
    | (Raise e, s') => handler e E s'
    end.

Definition get_pause : M bool := fun _ s => (Ok (pause s), s).
Definition get_ax : M (option axes) := fun _ s => (Ok (ax s), s).
Definition put_pause (b : bool) : M unit := fun _ s => (Ok tt, set_pause b s).
Definition put_ax (a : axes) : M unit := fun _ s => (Ok tt, set_ax (Some a) s).

(** A call whose answer is a value. *)
Definition ask {A} (c : call) (answer : env -> res A) : M A :=
  fun E s =>
    match answer E with
    | Ok a => (Ok a, emit (done c) s)
    | Raise e => (Raise e, emit (failed c e) s)
    end.

(** A call made for its effect. *)
Definition tell (c : call) (answer : env -> option exc) : M unit :=
  fun E s =>
    match answer E with
    | None => (Ok tt, emit (done c) s)
    | Some e => (Raise e, emit (failed c e) s)
    end.

Definition query_ascii_values (cmd : string) : M (list float) :=
  ask (SaQueryAsciiValues cmd) (fun E => sa_query_ascii_values E cmd).

Definition query_float (cmd : string) : M float :=
  ask (SaQuery cmd) (fun E => sa_query_float E cmd).

Definition write (cmd : string) : M unit :=
  tell (SaWrite cmd) (fun E => sa_write E cmd).

Definition datetime_now : M Clock.datetime := fun E s => (Ok (now E), s).

(** The text handed to an open file object and still in its buffer. *)
Definition buffer : Type := string.

(** What reaches the disk of [text] when the operation flushing it raises. *)
Definition flushed (E : env) (text : buffer) : string :=
  Str.take (os_flushed E) text.

(** [file.write(data)] on the file opened for appending; the text is the
    one the program hands over, before any newline translation. It stays
    in the buffer of the file object; when the write raises, only part of
    the text handed over so far has reached the disk. *)
Definition file_write (file : buffer) (data : string) : M buffer :=
  fun E s =>
    match os_write E data with
    | None => (Ok (file ++ data), emit (done (FileWrite data)) s)
    | Some e =>
        (Raise e,
         emit (failed (FileWrite data) e)
           (set_rfi (Some (contents s ++ flushed E (file ++ data))) s))
    end.

(** [with open(path, 'a') as file: body]: the file is created when absent
    and closed on the way out, whether [body] raised or not; an exception
    from closing replaces the one of the body. Closing writes the buffer
    to the disk, all of it when it succeeds. *)
Definition with_open_append (path : string) (body : buffer -> M buffer)
    : M unit :=
  fun E s =>
    match os_open E path "a" with
    | Some e => (Raise e, emit (failed (FileOpen path "a") e) s)
    | None =>
        let s1 := emit (done (FileOpen path "a"))
                    (set_rfi (Some (contents s)) s) in
        match body "" E s1 with
        | (Ok file, s2) =>
            match os_close E with
            | None =>
                (Ok tt,
                 emit (done FileClose)
                   (set_rfi (Some (contents s2 ++ file)) s2))
            | Some e =>
                (Raise e,
                 emit (failed FileClose e)
                   (set_rfi (Some (contents s2 ++ flushed E file)) s2))
            end
        | (Raise e, s2) =>
            match os_close E with
            | None => (Raise e, emit (done FileClose) s2)
            | Some e' => (Raise e', emit (failed FileClose e') s2)
            end
        end
    end.

(** A call on the figure, the axes or the canvas. *)
Definition plot_call (c : call) : M unit := tell c (fun E => mpl E c).

(** [print] and the message boxes, which return once the text is out or
    the box is dismissed. *)
Definition ui (c : call) : M unit := fun _ s => (Ok tt, emit (done c) s).

End Sys.

Declare Scope py_scope.
Delimit Scope py_scope with py.
Notation "x <- m ;; k" := (Sys.bind m (fun x => k))
  (at level 61, m at next level, right associativity) : py_scope.
Notation "m ;; k" := (Sys.bind m (fun _ => k))
  (at level 61, right associativity) : py_scope.

(* ===================================================================== *)
(** * SpectrumAnalyzerApp *)
(* ===================================================================== *)

Module App.

Import PyFloat Sys.
Local Open Scope py_scope.

Definition rfi_file_path : string := "12_july.rfi".

(** The float literals of the source. *)
Definition lit_1e6 : float := of_Z 1000000.
Definition lit_1e9 : float := of_Z 1000000000.
Definition lit_1e3 : float := of_Z 1000.
Definition lit_1000_0 : float := of_Z 1000.

(** The attributes [initUI] leaves behind once the session is open: the
    loop runs, and no axes exist yet. *)
Definition initUI (file : option string) : state :=
  {| pause := false; ax := None; rfi := file; log := [] |}.

(** The first string written to the log file:
    [f"{current_time},{center_freq:.6f},{span:.9f},{rbw:.3f},{vbw:.3f},{ref_level},{sweep_time_ms},{amp_div},{att},{avg_num},*\n"] *)
Definition header_fstring (current_time : string)
    (center_freq span rbw vbw ref_level sweep_time_ms amp_div att avg_num : float)
    : string :=
  current_time ++ "," ++ format_f 6 center_freq ++ "," ++ format_f 9 span ++
  "," ++ format_f 3 rbw ++ "," ++ format_f 3 vbw ++ "," ++ repr ref_level ++
  "," ++ repr sweep_time_ms ++ "," ++ repr amp_div ++ "," ++ repr att ++
  "," ++ repr avg_num ++ ",*" ++ Str.nl.

(** The second string written:
    [','.join(map(lambda x: f"{x:.2f}", trace_data)) + ',@\n\n'] *)
Definition trace_fstring (trace_data : list float) : string :=
  Str.join "," (map (fun x => format_f 2 x) trace_data) ++
  ",@" ++ Str.nl ++ Str.nl.

(** The body of the [try] in [update_plot]. *)
Definition update_plot_try : M unit :=
  trace_data <- query_ascii_values "TRACE:DATA? TRACE1" ;;
  t <- datetime_now ;;
  let current_time := Clock.strftime t in
  v <- query_float ":SENSE:FREQ:CENTER?" ;;
  let center_freq := div v lit_1e6 in
  v <- query_float ":SENSE:FREQ:SPAN?" ;;
  let span := div v lit_1e9 in
  v <- query_float ":SENSE:BAND:RES?" ;;
  let rbw := div v lit_1e3 in
  v <- query_float ":SENSE:BAND:VID?" ;;
  let vbw := div v lit_1e3 in
  ref_level <- query_float ":DISP:WIND:TRAC:Y:RLEV?" ;;
  sweep_time_sec <- query_float ":SWE:TIME?" ;;
  amp_div <- query_float ":DISP:WIND:TRAC:Y:SCAL?" ;;
  att <- query_float ":INP:ATT?" ;;
  avg_num <- query_float ":AVER:COUN?" ;;
  let sweep_time_ms := mul sweep_time_sec lit_1000_0 in
  with_open_append rfi_file_path (fun file =>
    file <- file_write file
              (header_fstring current_time center_freq span rbw vbw
                 ref_level sweep_time_ms amp_div att avg_num) ;;
    file_write file (trace_fstring trace_data)) ;;
  a <- get_ax ;;
  match a with
  | None =>
      plot_call (FigAddSubplot 111) ;;
      put_ax Subplot111
  | Some _ => ret tt
  end ;;
  plot_call AxClear ;;
  plot_call (AxPlot trace_data) ;;
  plot_call (AxSetXlabel "Frequency (MHz)") ;;
  plot_call (AxSetYlabel "Amplitude (dBm)") ;;
  plot_call (AxSetTitle "Live Spectrum Monitor") ;;
  plot_call (AxGrid true) ;;
  plot_call CanvasDraw.

(** The [except Exception as e] clause of [update_plot]. *)
Definition update_plot_except (e : exc) : M unit :=
  ui (StdoutPrint ("Error updating plot: " ++ exc_str e)) ;;
  ui (MsgCritical "Error" ("Error updating plot: " ++ exc_str e)).

Definition update_plot : M unit :=
  paused <- get_pause ;;
  if negb paused
  then try_except update_plot_try update_plot_except
  else ret tt.

Definition pause_updates : M unit := put_pause true.

Definition resume_updates : M unit :=
  put_pause false ;;
  update_plot.

(** The default values of [reset_parameters]. *)
Definition default_center_freq : float := of_Z 100000000.
Definition default_span : float := of_Z 1000000000.
Definition default_rbw : float := of_Z 100000.
Definition default_vbw : float := of_Z 100000.
Definition default_ref_level : float := of_Z (-10).
Definition default_amp_div : float := of_Z 10.
Definition default_att : float := of_Z 0.
Definition default_avg_num : float := of_Z 1.

(** The body of the [try] in [reset_parameters]. *)
Definition reset_parameters_try : M unit :=
  write "*RST" ;;
  write (":SENSE:FREQ:CENTER " ++ repr default_center_freq) ;;
  write (":SENSE:FREQ:SPAN " ++ repr default_span) ;;
  write (":SENSE:BAND:RES " ++ repr default_rbw) ;;
  write (":SENSE:BAND:VID " ++ repr default_vbw) ;;
  write (":DISP:WIND:TRAC:Y:RLEV " ++ repr default_ref_level) ;;
  write (":DISP:WIND:TRAC:Y:SCAL " ++ repr default_amp_div) ;;
  write (":INP:ATT " ++ repr default_att) ;;
  write (":AVER:COUN " ++ repr default_avg_num) ;;
  ui (MsgInformation "Success" "Parameters reset to default values.").

Definition reset_parameters_except (e : exc) : M unit :=
  ui (MsgCritical "Error" ("Failed to reset parameters: " ++ exc_str e)).

Definition reset_parameters : M unit :=
  try_except reset_parameters_try reset_parameters_except.

(** The signals [initUI] connects: the one-second timer and three of the
    buttons (the image export is left out). *)
Inductive signal : Type :=
| TimerTimeout
| PauseClicked
| ResumeClicked
| ResetParamsClicked.

Definition slot (sg : signal) : M unit :=
  match sg with
  | TimerTimeout => update_plot
  | PauseClicked => pause_updates
  | ResumeClicked => resume_updates
  | ResetParamsClicked => reset_parameters
  end.

(** The state after a callback; the event loop drops its result. *)
Definition after (m : M unit) (E : env) (s : state) : state := snd (m E s).

(** The event loop delivering signals one after the other, each callback
    running to its end with the answers the collaborators give meanwhile. *)
Fixpoint deliver (sgs : list (signal * env)) (s : state) : state :=
  match sgs with
  | [] => s
  | (sg, E) :: rest => deliver rest (after (slot sg) E s)
  end.

End App.

(* ===================================================================== *)
(** * Observations used to state the properties *)
(* ===================================================================== *)

Module Obs.

Import PyFloat Sys App.

(** The raw answers of the instrument during one tick. *)
Record readings : Type := {
  trace_data : list float;
  center_hz : float;
  span_hz : float;
  rbw_hz : float;
  vbw_hz : float;
  ref_level : float;
  sweep_time_sec : float;
  amp_div : float;
  att : float;
  avg_num : float
}.

(** Every query of a tick succeeds, with the answers [r]. *)
Definition answers (E : env) (r : readings) : Prop :=
  sa_query_ascii_values E "TRACE:DATA? TRACE1" = Ok (trace_data r) /\
  sa_query_float E ":SENSE:FREQ:CENTER?" = Ok (center_hz r) /\
  sa_query_float E ":SENSE:FREQ:SPAN?" = Ok (span_hz r) /\
  sa_query_float E ":SENSE:BAND:RES?" = Ok (rbw_hz r) /\
  sa_query_float E ":SENSE:BAND:VID?" = Ok (vbw_hz r) /\
  sa_query_float E ":DISP:WIND:TRAC:Y:RLEV?" = Ok (ref_level r) /\
  sa_query_float E ":SWE:TIME?" = Ok (sweep_time_sec r) /\
  sa_query_float E ":DISP:WIND:TRAC:Y:SCAL?" = Ok (amp_div r) /\
  sa_query_float E ":INP:ATT?" = Ok (att r) /\
  sa_query_float E ":AVER:COUN?" = Ok (avg_num r).

(** The log file can be opened for appending and takes every write. *)
Definition writable (E : env) : Prop :=
  os_open E rfi_file_path "a" = None /\ forall data, os_write E data = None.

(** The file operations of a tick all succeed, closing included. *)
Definition file_ok (E : env) : Prop := writable E /\ os_close E = None.

(** Every call on the plot surface succeeds. *)
Definition plot_ok (E : env) : Prop := forall c, mpl E c = None.

(** The ten queries of a tick, in program order. *)
Definition query_calls : list call :=
  [ SaQueryAsciiValues "TRACE:DATA? TRACE1";
    SaQuery ":SENSE:FREQ:CENTER?";
    SaQuery ":SENSE:FREQ:SPAN?";
    SaQuery ":SENSE:BAND:RES?";
    SaQuery ":SENSE:BAND:VID?";
    SaQuery ":DISP:WIND:TRAC:Y:RLEV?";
    SaQuery ":SWE:TIME?";
    SaQuery ":DISP:WIND:TRAC:Y:SCAL?";
    SaQuery ":INP:ATT?";
    SaQuery ":AVER:COUN?" ].

(** The ten comma-separated fields of a header line: the timestamp, then
    the nine scalar settings in the units of the log. *)
Definition header_fields (t : Clock.datetime) (r : readings) : list string :=
  [ Clock.strftime t;
    format_f 6 (div (center_hz r) lit_1e6);
    format_f 9 (div (span_hz r) lit_1e9);
    format_f 3 (div (rbw_hz r) lit_1e3);
    format_f 3 (div (vbw_hz r) lit_1e3);
    repr (ref_level r);
    repr (mul (sweep_time_sec r) lit_1000_0);
    repr (amp_div r);
    repr (att r);
    repr (avg_num r) ].

(** The fields of a trace line: one per amplitude. *)
Definition trace_fields (r : readings) : list string :=
  map (format_f 2) (trace_data r).

(** The two strings a tick writes for the readings [r] taken at [t]. *)
Definition header_text (t : Clock.datetime) (r : readings) : string :=
  header_fstring (Clock.strftime t)
    (div (center_hz r) lit_1e6) (div (span_hz r) lit_1e9)
    (div (rbw_hz r) lit_1e3) (div (vbw_hz r) lit_1e3)
    (ref_level r) (mul (sweep_time_sec r) lit_1000_0)
    (amp_div r) (att r) (avg_num r).

Definition trace_text (r : readings) : string :=
  trace_fstring (trace_data r).

(** The calls on the log file during a complete tick. *)
Definition file_calls (t : Clock.datetime) (r : readings) : list call :=
  [ FileOpen rfi_file_path "a";
    FileWrite (header_text t r);
    FileWrite (trace_text r);
    FileClose ].

(** The calls on the plot surface during a complete tick; the axes are
    created by the first one. *)
Definition plot_calls (a : option axes) (r : readings) : list call :=
  match a with
  | None => [FigAddSubplot 111]
  | Some _ => []
  end ++
  [ AxClear;
    AxPlot (trace_data r);
    AxSetXlabel "Frequency (MHz)";
    AxSetYlabel "Amplitude (dBm)";
    AxSetTitle "Live Spectrum Monitor";
    AxGrid true;
    CanvasDraw ].

(** [n / 10^p] is a decimal fraction nearest to the absolute value of
    [x]: at most half a unit of the last decimal place away, and with an
    even last digit when exactly half a unit away. *)
Definition rounds_to (p : nat) (x : float) (n : Z) : Prop :=
  let off := Z.abs (n * denominator x - numerator x * 10 ^ Z.of_nat p) in
  2 * off <= denominator x /\ (2 * off = denominator x -> Z.even n = true).

(** [field] is how a fixed-point format with [p] decimal places writes
    [x]: for a finite [x] a numeral with exactly [p] decimal places, the
    sign of [x] and the digits of [x] rounded to [p] places; [nan], [inf]
    or [-inf] otherwise. *)
Definition shows (p : nat) (x : float) (field : string) : Prop :=
  (is_finite x = true ->
   Str.has_decimals p field = true /\
   Str.has_minus field = negative x /\
   rounds_to p x (Str.digits_value field)) /\
  (x = S754_nan -> field = "nan") /\
  (x = S754_infinity false -> field = "inf") /\
  (x = S754_infinity true -> field = "-inf").

(** The pieces [str.split(',')] finds on a trace line before the marker:
    the amplitudes, or a single empty piece when the trace is empty. *)
Definition trace_tokens (r : readings) : list string :=
  match trace_data r with
  | [] => [""]
  | _ :: _ => trace_fields r
  end.

(** The header and trace lines of the record for the readings [r]. *)
Definition header_line (t : Clock.datetime) (r : readings) : string :=
  Str.join "," (header_fields t r) ++ ",*".

Definition trace_line (r : readings) : string :=
  Str.join "," (trace_fields r) ++ ",@".

(** The statements of [update_plot] under its comment [# Update plot]. *)
Definition render (trace_data : list float) : M unit :=
  (a <- get_ax ;;
   match a with
   | None =>
       plot_call (FigAddSubplot 111) ;;
       put_ax Subplot111
   | Some _ => ret tt
   end ;;
   plot_call AxClear ;;
   plot_call (AxPlot trace_data) ;;
   plot_call (AxSetXlabel "Frequency (MHz)") ;;
   plot_call (AxSetYlabel "Amplitude (dBm)") ;;
   plot_call (AxSetTitle "Live Spectrum Monitor") ;;
   plot_call (AxGrid true) ;;
   plot_call CanvasDraw)%py.

(** The statements under [# Write data to file], for the readings [r]. *)
Definition log_sample (t : Clock.datetime) (r : readings) : M unit :=
  with_open_append rfi_file_path
    (fun file =>
       file <- file_write file (header_text t r) ;;
       file_write file (trace_text r))%py.

(** The state once the ten queries of a tick have been answered. *)
Definition queried (s : state) : state :=
  fold_left (fun st c => emit (done c) st) query_calls s.

(** The shape of the events of a tick that was cut short: calls that
    succeeded, then the one that raised, then nothing but the closing of
    the log file when it was open. *)
Fixpoint aborted (evs : list event) : bool :=
  match evs with
  | [] => false
  | ev :: rest =>
      match ev_raised ev with
      | None => aborted rest
      | Some _ =>
          match rest with
          | [] => true
          | [c] => match ev_call c with FileClose => true | _ => false end
          | _ => false
          end
      end
  end.

(** [keeps f m]: running [m] never changes the observation [f]. *)
Definition keeps {A X} (f : state -> X) (m : M A) : Prop :=
  forall E s, f (snd (m E s)) = f s.

(** The closing of the log file, with its outcome. *)
Definition closing (E : env) : event :=
  {| ev_call := FileClose; ev_raised := os_close E |}.

(** The text added to the log file between two states. *)
Definition appended (s s' : state) : string :=
  Str.drop (String.length (contents s)) (contents s').

(** The events logged between two states. *)
Definition happened (s s' : state) : list event :=
  skipn (List.length (log s)) (log s').

Definition is_plot_call (ev : event) : bool :=
  match ev_call ev with
  | FigAddSubplot _ | AxClear | AxPlot _ | AxSetXlabel _ | AxSetYlabel _
  | AxSetTitle _ | AxGrid _ | CanvasDraw => true
  | _ => false
  end.

Definition is_file_call (ev : event) : bool :=
  match ev_call ev with
  | FileOpen _ _ | FileWrite _ | FileClose => true
  | _ => false
  end.

Definition is_message (ev : event) : bool :=
  match ev_call ev with
  | MsgCritical _ _ | MsgInformation _ _ => true
  | _ => false
  end.

(** The state a failed tick is left in by the [except] clause: the error
    is printed and shown in a modal box. *)
Definition reported (e : exc) (s : state) : state :=
  emit (done (MsgCritical "Error" ("Error updating plot: " ++ exc_str e)))
    (emit (done (StdoutPrint ("Error updating plot: " ++ exc_str e))) s).

(** The eight configuration commands of a reset, in program order: center
    frequency, span, resolution bandwidth, video bandwidth, reference
    level, amplitude per division, attenuation, average count. *)
Definition config_writes : list string :=
  [ ":SENSE:FREQ:CENTER 100000000.0";
    ":SENSE:FREQ:SPAN 1000000000.0";
    ":SENSE:BAND:RES 100000.0";
    ":SENSE:BAND:VID 100000.0";
    ":DISP:WIND:TRAC:Y:RLEV -10.0";
    ":DISP:WIND:TRAC:Y:SCAL 10.0";
    ":INP:ATT 0.0";
    ":AVER:COUN 1.0" ].

End Obs.

(* ===================================================================== *)
(** * A test bench: concrete instruments, files and plots *)
(* ===================================================================== *)

Module Bench.

Import PyFloat Sys App Obs.

(** The float written [a/b] as a decimal literal, such as [-50.123]. *)
Definition ratio (a b : Z) : float := div (of_Z a) (of_Z b).

Definition timeout : exc :=
  {| exc_type := "VisaIOError"; exc_str := "VI_ERROR_TMO" |}.

Definition disk_full : exc :=
  {| exc_type := "OSError"; exc_str := "No space left on device" |}.

Definition no_display : exc :=
  {| exc_type := "RuntimeError"; exc_str := "canvas is gone" |}.

Definition morning : Clock.datetime :=
  {| Clock.year := 2024; Clock.month := 7; Clock.day := 12;
     Clock.hour := 10; Clock.minute := 0; Clock.second := 0 |}.

(** An instrument that answers the ten queries with [r], takes every
    command, and sits next to a healthy disk and display. *)
Definition bench (r : readings) : env :=
  {| sa_query_ascii_values := fun cmd =>
       if String.eqb cmd "TRACE:DATA? TRACE1" then Ok (trace_data r)
       else Raise timeout;
     sa_query_float := fun cmd =>
       if String.eqb cmd ":SENSE:FREQ:CENTER?" then Ok (center_hz r)
       else if String.eqb cmd ":SENSE:FREQ:SPAN?" then Ok (span_hz r)
       else if String.eqb cmd ":SENSE:BAND:RES?" then Ok (rbw_hz r)
       else if String.eqb cmd ":SENSE:BAND:VID?" then Ok (vbw_hz r)
       else if String.eqb cmd ":DISP:WIND:TRAC:Y:RLEV?" then Ok (ref_level r)
       else if String.eqb cmd ":SWE:TIME?" then Ok (sweep_time_sec r)
       else if String.eqb cmd ":DISP:WIND:TRAC:Y:SCAL?" then Ok (amp_div r)
       else if String.eqb cmd ":INP:ATT?" then Ok (att r)
       else if String.eqb cmd ":AVER:COUN?" then Ok (avg_num r)
       else Raise timeout;
     sa_write := fun _ => None;
     now := morning;
     os_open := fun _ _ => None;
     os_write := fun _ => None;
     os_close := None;
     os_flushed := 0;
     mpl := fun _ => None |}.

(** The example of the specification: center 100 MHz, span 1 GHz, both
    bandwidths 100 kHz, reference level -10 dBm, sweep 10 ms, 10 dB per
    division, no attenuation, one average, two trace points. *)
Definition example : readings :=
  {| trace_data := [ratio (-50123) 1000; ratio (-60456) 1000];
     center_hz := of_Z 100000000;
     span_hz := of_Z 1000000000;
     rbw_hz := of_Z 100000;
     vbw_hz := of_Z 100000;
     ref_level := of_Z (-10);
     sweep_time_sec := ratio 1 100;
     amp_div := of_Z 10;
     att := of_Z 0;
     avg_num := of_Z 1 |}.

Definition with_trace (tr : list float) (r : readings) : readings :=
  {| trace_data := tr; center_hz := center_hz r; span_hz := span_hz r;
     rbw_hz := rbw_hz r; vbw_hz := vbw_hz r; ref_level := ref_level r;
     sweep_time_sec := sweep_time_sec r; amp_div := amp_div r;
     att := att r; avg_num := avg_num r |}.

(** The bench with a session that times out on the trace query. *)
Definition deaf (r : readings) : env :=
  {| sa_query_ascii_values := fun _ => Raise timeout;
     sa_query_float := sa_query_float (bench r);
     sa_write := sa_write (bench r);
     now := morning;
     os_open := os_open (bench r);
     os_write := os_write (bench r);
     os_close := os_close (bench r);
     os_flushed := os_flushed (bench r);
     mpl := mpl (bench r) |}.

(** The bench with a canvas that fails to redraw. *)
Definition blind (r : readings) : env :=
  {| sa_query_ascii_values := sa_query_ascii_values (bench r);
     sa_query_float := sa_query_float (bench r);
     sa_write := sa_write (bench r);
     now := morning;
     os_open := os_open (bench r);
     os_write := os_write (bench r);
     os_close := os_close (bench r);
     os_flushed := os_flushed (bench r);
     mpl := fun c => match c with CanvasDraw => Some no_display | _ => None end |}.

(** The bench with an instrument that rejects one command. *)
Definition rejecting (bad : string) (r : readings) : env :=
  {| sa_query_ascii_values := sa_query_ascii_values (bench r);
     sa_query_float := sa_query_float (bench r);
     sa_write := fun cmd => if String.eqb cmd bad then Some timeout else None;
     now := morning;
     os_open := os_open (bench r);
     os_write := os_write (bench r);
     os_close := os_close (bench r);
     os_flushed := os_flushed (bench r);
     mpl := mpl (bench r) |}.

(** The bench with a disk that refuses every write. *)
Definition full_disk (r : readings) : env :=
  {| sa_query_ascii_values := sa_query_ascii_values (bench r);
     sa_query_float := sa_query_float (bench r);
     sa_write := sa_write (bench r);
     now := morning;
     os_open := os_open (bench r);
     os_write := fun _ => Some disk_full;
     os_close := os_close (bench r);
     os_flushed := os_flushed (bench r);
     mpl := mpl (bench r) |}.

Definition io_error : exc :=
  {| exc_type := "OSError"; exc_str := "Input/output error" |}.

(** The bench with a disk that fails when the file is closed, after the
    first [n] characters of the buffered text have reached it. *)
Definition unplugged (n : nat) (r : readings) : env :=
  {| sa_query_ascii_values := sa_query_ascii_values (bench r);
     sa_query_float := sa_query_float (bench r);
     sa_write := sa_write (bench r);
     now := morning;
     os_open := os_open (bench r);
     os_write := os_write (bench r);
     os_close := Some io_error;
     os_flushed := n;
     mpl := mpl (bench r) |}.

(** A log file that already holds some text. *)
Definition started : state := initUI (Some ("earlier" ++ Str.nl)).

End Bench.

(* ===================================================================== *)
(** * Further observations on the loop *)
(* ===================================================================== *)

Module Watch.

Import PyFloat Sys App Obs.

Definition is_query (ev : event) : bool :=
  match ev_call ev with
  | SaQueryAsciiValues _ | SaQuery _ => true
  | _ => false
  end.

Definition is_sa_write (ev : event) : bool :=
  match ev_call ev with
  | SaWrite _ => true
  | _ => false
  end.

(** A call on the instrument session. *)
Definition is_instrument_call (ev : event) : bool :=
  is_query ev || is_sa_write ev.

(** The creation of the axes: a call of [add_subplot] that returned. *)
Definition created_axes (ev : event) : bool :=
  match ev_call ev, ev_raised ev with
  | FigAddSubplot _, None => true
  | _, _ => false
  end.

Definition is_success_box (ev : event) : bool :=
  match ev_call ev with
  | MsgInformation _ _ => true
  | _ => false
  end.

(** A print or a message box. *)
Definition is_report (ev : event) : bool :=
  match ev_call ev with
  | StdoutPrint _ | MsgCritical _ _ | MsgInformation _ _ => true
  | _ => false
  end.

(** The instrument takes the command [cmd]. *)
Definition accepts (E : env) (cmd : string) : bool :=
  match sa_write E cmd with
  | None => true
  | Some _ => false
  end.

(** The nine commands of a reset, in program order. *)
Definition reset_writes : list string := "*RST" :: config_writes.

(** Timer ticks, one per environment. *)
Definition timer_ticks (Es : list env) : list (signal * env) :=
  map (fun E => (TimerTimeout, E)) Es.

(** Several texts one after the other. *)
Fixpoint cat (texts : list string) : string :=
  match texts with
  | [] => ""
  | t :: rest => t ++ cat rest
  end.

(** The text of the records of a run of ticks, each with its readings. *)
Definition records_text (ticks : list (env * readings)) : string :=
  cat (map (fun p => header_text (now (fst p)) (snd p) ++ trace_text (snd p))
         ticks).

(** The lines of those records: header, trace and blank line for each. *)
Definition records_lines (ticks : list (env * readings)) : list string :=
  flat_map (fun p => [header_line (now (fst p)) (snd p); trace_line (snd p); ""])
    ticks.

(** Every collaborator cooperates during the tick, with the readings. *)
Definition cooperative (p : env * readings) : Prop :=
  answers (fst p) (snd p) /\ file_ok (fst p) /\ plot_ok (fst p).

(** [grows m]: running [m] leaves the text of the log file as a prefix of
    the new text, and does not remove the file. *)
Definition grows {A} (m : M A) : Prop :=
  forall E s,
    (exists text, contents (snd (m E s)) = contents s ++ text) /\
    (rfi s <> None -> rfi (snd (m E s)) <> None).

(** The number of times the axes were created in a history of calls. *)
Definition axes_created (evs : list event) : nat :=
  List.length (filter created_axes evs).

(** The curves handed to [ax.plot] in a history of calls. *)
Fixpoint plotted (evs : list event) : list (list float) :=
  match evs with
  | [] => []
  | ev :: rest =>
      match ev_call ev with
      | AxPlot ys => ys :: plotted rest
      | _ => plotted rest
      end
  end.

(** The axes exist exactly when they have been created once. *)
Definition axes_counted (s : state) : Prop :=
  axes_created (log s) = match ax s with Some _ => 1%nat | None => 0%nat end.

End Watch.

(* ===================================================================== *)
(** * LiveSpectrumWidget *)
(* ===================================================================== *)

Module Live.

Import PyFloat Sys.

(** The widget: its [data] attribute ([None] until data arrives) and the
    history of its calls on the figure, the axes and the canvas. *)
Record widget : Type := {
  data : option (list float);
  calls : list event
}.

Definition L (A : Type) : Type := env -> widget -> res A * widget.

Definition lret {A} (a : A) : L A := fun _ w => (Ok a, w).

Definition lbind {A B} (m : L A) (k : A -> L B) : L B :=
  fun E w =>
    match m E w with
    | (Ok a, w') => k a E w'
    | (Raise e, w') => (Raise e, w')
    end.

(** A call on the plot surface, answered as in the loop. *)
Definition lcall (c : call) : L unit :=
  fun E w =>
    match mpl E c with
    | None => (Ok tt, {| data := data w; calls := (calls w ++ [done c])%list |})
    | Some e => (Raise e, {| data := data w; calls := (calls w ++ [failed c e])%list |})
    end.

Definition set_data (d : option (list float)) : L unit :=
  fun _ w => (Ok tt, {| data := d; calls := calls w |}).

Definition get_data : L (option (list float)) := fun _ w => (Ok (data w), w).

(** The object before [__init__] has run. *)
Definition blank : widget := {| data := None; calls := [] |}.

(** [__init__]: the axes are created and labelled, then [self.data = None]. *)
Definition init : L unit :=
  lbind (lcall (FigAddSubplot 111)) (fun _ =>
  lbind (lcall (AxSetTitle "Live Spectrum")) (fun _ =>
  lbind (lcall (AxSetXlabel "Frequency (MHz)")) (fun _ =>
  lbind (lcall (AxSetYlabel "Amplitude (dBm)")) (fun _ =>
  set_data None)))).

(** [plot_data]: clear, plot the data if there are any, redraw. *)
Definition plot_data : L unit :=
  lbind (lcall AxClear) (fun _ =>
  lbind get_data (fun d =>
  lbind (match d with
         | Some ys => lcall (AxPlot ys)
         | None => lret tt
         end) (fun _ =>
  lcall CanvasDraw))).

(** [update_data(data)]; the argument may be [None]. *)
Definition update_data (d : option (list float)) : L unit :=
  lbind (set_data d) (fun _ => plot_data).

(** The calls of one redraw with the data [d]. *)
Definition frame (d : option (list float)) : list call :=
  (AxClear ::
   match d with
   | Some ys => [AxPlot ys]
   | None => []
   end ++ [CanvasDraw])%list.

(** The calls of the constructor. *)
Definition init_calls : list call :=
  [ FigAddSubplot 111;
    AxSetTitle "Live Spectrum";
    AxSetXlabel "Frequency (MHz)";
    AxSetYlabel "Amplitude (dBm)" ].

(** A run of updates, stopping at the first that raises. *)
Fixpoint updates (ds : list (option (list float) * env)) (w : widget)
    : res unit * widget :=
  match ds with
  | [] => (Ok tt, w)
  | (d, E) :: rest =>
      match update_data d E w with
      | (Ok _, w') => updates rest w'
      | (Raise e, w') => (Raise e, w')
      end
  end.

Definition is_label_call (ev : event) : bool :=
  match ev_call ev with
  | AxSetTitle _ | AxSetXlabel _ | AxSetYlabel _ => true
  | _ => false
  end.

End Live.

(* ===================================================================== *)
(** * The widget from start-up on: connection, attributes, image export *)
(* ===================================================================== *)

Module Gui.

Import PyFloat Sys App Watch.

(** What the collaborators of the whole widget answer during one
    callback: those of the loop, the VISA resource manager, the file
    dialog and the figure export. *)
Record genv : Type := {
  core : env;
  resource_manager : option exc;          (* pyvisa.ResourceManager() *)
  open_resource : string -> option exc;   (* self.rm.open_resource(address) *)
  get_save_file_name : res string;        (* QFileDialog.getSaveFileName(...)[0] *)
  savefig : string -> option exc          (* self.fig.savefig(path) *)
}.

(** The calls of the widget that the loop does not make. *)
Inductive gcall : Type :=
| VisaResourceManager
| VisaOpenResource (address : string)
| TimerStart (msec : Z)
| GetSaveFileName (caption directory filter : string)
| FigSavefig (path : string).

Record gevent : Type := { gev_call : gcall; gev_raised : option exc }.

Definition gdone (c : gcall) : gevent :=
  {| gev_call := c; gev_raised := None |}.
Definition gfailed (c : gcall) (e : exc) : gevent :=
  {| gev_call := c; gev_raised := Some e |}.

(** The widget object: the state of the loop, which attributes have been
    assigned so far, the running timer and the history of the other
    calls. While [has_pause] is false the field [pause] of [obj] stands
    for an attribute that does not exist. *)
Record app : Type := {
  obj : state;
  has_pause : bool;      (* self.pause exists *)
  has_sa : bool;         (* self.sa exists *)
  timer : option Z;      (* interval of the started timer *)
  glog : list gevent
}.

Definition with_obj (s : state) (a : app) : app :=
  {| obj := s; has_pause := has_pause a; has_sa := has_sa a;
     timer := timer a; glog := glog a |}.

Definition gemit (ev : gevent) (a : app) : app :=
  {| obj := obj a; has_pause := has_pause a; has_sa := has_sa a;
     timer := timer a; glog := (glog a ++ [ev])%list |}.

Definition assign_pause (b : bool) (a : app) : app :=
  {| obj := set_pause b (obj a); has_pause := true; has_sa := has_sa a;
     timer := timer a; glog := glog a |}.

Definition assign_sa (a : app) : app :=
  {| obj := obj a; has_pause := has_pause a; has_sa := true;
     timer := timer a; glog := glog a |}.

Definition start_timer (msec : Z) (a : app) : app :=
  {| obj := obj a; has_pause := has_pause a; has_sa := has_sa a;
     timer := Some msec; glog := (glog a ++ [gdone (TimerStart msec)])%list |}.

Definition G (A : Type) : Type := genv -> app -> res A * app.

Definition gret {A} (a : A) : G A := fun _ w => (Ok a, w).

Definition gbind {A B} (m : G A) (k : A -> G B) : G B :=
  fun X w =>
    match m X w with
    | (Ok a, w') => k a X w'
    | (Raise e, w') => (Raise e, w')
    end.

Definition gtry {A} (body : G A) (handler : exc -> G A) : G A :=
  fun X w =>
    match body X w with
    | (Ok a, w') => (Ok a, w')
    | (Raise e, w') => handler e X w'
    end.

(** A computation of the loop, run on the loop's part of the widget. *)
Definition lift {A} (m : M A) : G A :=
  fun X w => let '(r, s') := m (core X) (obj w) in (r, with_obj s' w).


Definition gask {A} (c : gcall) (answer : genv -> res A) : G A :=
  fun X w =>
    match answer X with
    | Ok a => (Ok a, gemit (gdone c) w)
    | Raise e => (Raise e, gemit (gfailed c e) w)
    end.

Definition gtell (c : gcall) (answer : genv -> option exc) : G unit :=
  fun X w =>
    match answer X with
    | None => (Ok tt, gemit (gdone c) w)
    | Some e => (Raise e, gemit (gfailed c e) w)
    end.


Definition visa_address : string := "TCPIP0::192.168.8.36::inst0::INSTR".

(** The object when [initUI] starts, for a given log file on disk. *)
Definition fresh (file : option string) : app :=
  {| obj := {| pause := false; ax := None; rfi := file; log := [] |};
     has_pause := false; has_sa := false; timer := None; glog := [] |}.

(** [initUI]: [self.ax = None]; the buttons are connected; the resource
    manager is created outside any [try]; a [pyvisa.VisaIOError] from
    [open_resource] is shown and ends [initUI] there, any other exception
    leaves it; otherwise [self.pause = False] and the timer is started
    with an interval of 1000 ms. *)
Definition initUI : G unit :=
  fun X w =>
    let w0 := with_obj (set_ax None (obj w)) w in
    match resource_manager X with
    | Some e => (Raise e, gemit (gfailed VisaResourceManager e) w0)
    | None =>
        let w1 := gemit (gdone VisaResourceManager) w0 in
        match open_resource X visa_address with
        | Some e =>
            let w2 := gemit (gfailed (VisaOpenResource visa_address) e) w1 in
            if String.eqb (exc_type e) "VisaIOError"
            then lift (ui (MsgCritical "Error"
                             ("Failed to connect to spectrum analyzer: "
                              ++ exc_str e))) X w2
            else (Raise e, w2)
        | None =>
            let w2 := assign_sa (gemit (gdone (VisaOpenResource visa_address)) w1) in
            (Ok tt, start_timer 1000 (assign_pause false w2))
        end
    end.





(** [save_plot_image]: nothing is saved when the dialog returns an empty
    path. *)
Definition save_plot_image : G unit :=
  gtry
    (gbind
       (gask (GetSaveFileName "Save Plot Image" ""
                "PNG Image (*.png);;JPEG Image (*.jpg *.jpeg);;All Files (*.*)")
          get_save_file_name)
       (fun file_path =>
          if String.eqb file_path "" then gret tt
          else
            gbind (gtell (FigSavefig file_path) (fun X => savefig X file_path))
              (fun _ =>
                 lift (ui (MsgInformation "Saved"
                             "Plot image saved successfully!")))))
    (fun e =>
       lift (ui (MsgCritical "Error"
                   ("Error saving plot image: " ++ exc_str e)))).






(** The events of the other history added between two widgets. *)
Definition ghappened (w w' : app) : list gevent :=
  skipn (List.length (glog w)) (glog w').

End Gui.

(* ===================================================================== *)
(** * Facts about strings *)
(* ===================================================================== *)

Module StrFacts.

Import Str.

Lemma append_assoc (a b c : string) : (a ++ b) ++ c = a ++ (b ++ c).
Proof. induction a as [|x a IH]; simpl; [reflexivity | now rewrite IH]. Qed.

Lemma append_nil_r (a : string) : a ++ "" = a.
Proof. induction a as [|x a IH]; simpl; [reflexivity | now rewrite IH]. Qed.

Lemma length_append (a b : string) :
  String.length (a ++ b) = (String.length a + String.length b)%nat.
Proof. induction a as [|x a IH]; simpl; [reflexivity | now rewrite IH]. Qed.

Lemma drop_append (a b : string) : drop (String.length a) (a ++ b) = b.
Proof. induction a as [|x a IH]; simpl; [now destruct b | exact IH]. Qed.


Lemma every_append f (a b : string) :
  every f (a ++ b) = every f a && every f b.
Proof.
  induction a as [|x a IH]; simpl; [reflexivity |].
  now rewrite IH, andb_assoc.
Qed.

Lemma every_weaken (f g : ascii -> bool) (s : string) :
  (forall a, f a = true -> g a = true) -> every f s = true -> every g s = true.
Proof.
  intros Hfg. induction s as [|x s IH]; simpl; [reflexivity |].
  intros H. apply andb_true_iff in H as [Hx Hs].
  now rewrite (Hfg _ Hx), (IH Hs).
Qed.

Lemma every_replicate f n a : f a = true -> every f (replicate n a) = true.
Proof. intros Ha. induction n as [|n IH]; simpl; [reflexivity | now rewrite Ha]. Qed.

Lemma every_take f n s : every f s = true -> every f (take n s) = true.
Proof.
  revert s. induction n as [|n IH]; intros [|x s]; simpl; try reflexivity.
  intros H. apply andb_true_iff in H as [Hx Hs]. now rewrite Hx, IH.
Qed.

Lemma every_drop f n s : every f s = true -> every f (drop n s) = true.
Proof.
  revert s. induction n as [|n IH]; intros [|x s]; simpl; try easy.
  intros H. apply andb_true_iff in H as [Hx Hs]. now apply IH.
Qed.

(** Splitting a text that does not contain the separator leaves it whole. *)
Lemma split_on_lacks c s : lacks c s = true -> split_on c s = [s].
Proof.
  unfold lacks. induction s as [|x s IH]; simpl; [reflexivity |].
  intros H. apply andb_true_iff in H as [Hx Hs].
  apply negb_true_iff in Hx. rewrite Hx, (IH Hs). reflexivity.
Qed.

(** The first piece of a split ends at the first separator. *)
Lemma split_on_append c a b :
  lacks c a = true -> split_on c (a ++ String c b) = a :: split_on c b.
Proof.
  unfold lacks. induction a as [|x a IH]; simpl.
  - intros _. now rewrite Ascii.eqb_refl.
  - intros H. apply andb_true_iff in H as [Hx Ha].
    apply negb_true_iff in Hx. rewrite Hx, (IH Ha). reflexivity.
Qed.

(** [split] undoes [join] when no part contains the separator, also with
    more text after the last separator. *)
Lemma split_on_join c parts tail :
  forallb (lacks c) parts = true -> lacks c tail = true -> parts <> [] ->
  split_on c (join (String c "") parts ++ String c tail) = (parts ++ [tail])%list.
Proof.
  intros Hparts Htail. induction parts as [|w ws IH]; [easy | intros _].
  simpl in Hparts. apply andb_true_iff in Hparts as [Hw Hws].
  destruct ws as [|w' ws].
  - simpl. rewrite (split_on_append c w tail Hw).
    now rewrite (split_on_lacks c tail Htail).
  - change (join (String c "") (w :: w' :: ws))
      with (w ++ String c (join (String c "") (w' :: ws))).
    rewrite append_assoc.
    change (String c (join (String c "") (w' :: ws)) ++ String c tail)
      with (String c (join (String c "") (w' :: ws) ++ String c tail)).
    rewrite (split_on_append c w _ Hw).
    rewrite (IH Hws); [reflexivity | easy].
Qed.

Lemma endswith_append a b : endswith (a ++ b) b = true.
Proof.
  induction a as [|x a IH].
  - destruct b; simpl; [reflexivity |].
    now rewrite Ascii.eqb_refl, String.eqb_refl.
  - change (String x a ++ b) with (String x (a ++ b)).
    cbn [endswith].
    destruct (String.eqb (String x (a ++ b)) b); [reflexivity | exact IH].
Qed.

Lemma span_digits_stop (ds rest : string) (a : ascii) :
  all_digits ds = true -> is_digit a = false ->
  span_digits (ds ++ String a rest) = (ds, String a rest).
Proof.
  unfold all_digits. intros Hds Ha.
  induction ds as [|x ds IH]; simpl.
  - now rewrite Ha.
  - simpl in Hds. apply andb_true_iff in Hds as [Hx Hds].
    now rewrite Hx, (IH Hds).
Qed.

(** A numeral written as sign, integer digits, point and [p] fraction
    digits is recognised by [has_decimals p]. *)
Lemma has_decimals_intro (p : nat) (neg : bool) (ip fp : string) :
  all_digits ip = true -> ip <> "" ->
  all_digits fp = true -> String.length fp = p ->
  has_decimals p ((if neg then "-" else "") ++ ip ++ String "." fp) = true.
Proof.
  intros Hip Hne Hfp Hlen.
  assert (Hspan : span_digits (ip ++ String "." fp) = (ip, String "." fp))
    by now apply span_digits_stop.
  assert (Hbody : has_decimals p (ip ++ String "." fp) = true).
  { unfold has_decimals.
    destruct ip as [|x ip]; [easy |].
    assert (Hx : Ascii.eqb x "-" = false).
    { unfold all_digits in Hip. simpl in Hip.
      apply andb_true_iff in Hip as [Hx _].
      destruct (Ascii.eqb_spec x "-") as [->|]; [discriminate | reflexivity]. }
    change ((String x ip ++ String "." fp)) with (String x (ip ++ String "." fp)).
    cbv beta iota. rewrite Hx.
    change (String x (ip ++ String "." fp)) with (String x ip ++ String "." fp).
    rewrite Hspan. simpl. rewrite Hfp, Hlen, Nat.eqb_refl. reflexivity. }
  destruct neg; [| exact Hbody].
  unfold has_decimals. simpl append at 1.
  cbv beta iota. rewrite Ascii.eqb_refl.
  rewrite Hspan. rewrite Hfp, Hlen, Nat.eqb_refl.
  destruct ip; [easy | reflexivity].
Qed.

Lemma digits_from_append acc (a b : string) :
  digits_from acc (a ++ b) = digits_from (digits_from acc a) b.
Proof.
  revert acc. induction a as [|x a IH]; intros acc; simpl; [reflexivity |].
  apply IH.
Qed.




End StrFacts.

(* ===================================================================== *)
(** * Facts about the text forms of floats and timestamps *)
(* ===================================================================== *)

Module TextFacts.

Import Str StrFacts PyFloat Obs.

Lemma digit_char_digit d : is_digit (digit_char d) = true.
Proof.
  unfold digit_char.
  destruct (Z.to_nat d) as [|[|[|[|[|[|[|[|[|n]]]]]]]]]; reflexivity.
Qed.

Lemma nilempty_digits d : all_digits (NilEmpty.string_of_uint d) = true.
Proof. induction d; simpl; auto. Qed.

Lemma dec_digits n : all_digits (dec n) = true.
Proof.
  unfold dec, NilZero.string_of_uint.
  destruct (N.to_uint (Z.to_N n)) eqn:E; try reflexivity;
    rewrite <- E; apply nilempty_digits.
Qed.

Lemma dec_nonempty n : dec n <> "".
Proof.
  unfold dec, NilZero.string_of_uint.
  destruct (N.to_uint (Z.to_N n)); simpl; discriminate.
Qed.

Lemma dec_fixed_digits p n : all_digits (dec_fixed p n) = true.
Proof.
  revert n. induction p as [|p IH]; intros n; simpl; [reflexivity |].
  unfold all_digits in *. rewrite every_append, IH. simpl.
  now rewrite digit_char_digit.
Qed.

Lemma dec_fixed_length p n : String.length (dec_fixed p n) = p.
Proof.
  revert n. induction p as [|p IH]; intros n; simpl; [reflexivity |].
  rewrite length_append, IH. simpl. lia.
Qed.

(** With a positive precision, fixed-point output has an integer part, a
    point and exactly [p] fraction digits. *)
Lemma fixed_point_decimals (p : nat) (neg : bool) (q : Z) :
  (0 < p)%nat -> has_decimals p (sign_str neg ++ fixed_point p q) = true.
Proof.
  intros Hp. unfold fixed_point, sign_str.
  destruct p as [|p]; [lia |].
  change ("." ++ dec_fixed (S p) q) with (String "." (dec_fixed (S p) q)).
  apply has_decimals_intro.
  - apply dec_digits.
  - apply dec_nonempty.
  - apply dec_fixed_digits.
  - apply dec_fixed_length.
Qed.

(** ** Reading a fixed-point numeral back *)

Lemma digit_char_value d : 0 <= d <= 9 -> digit_value (digit_char d) = d.
Proof.
  intros H.
  assert (Hd : d = 0 \/ d = 1 \/ d = 2 \/ d = 3 \/ d = 4 \/ d = 5 \/ d = 6 \/
               d = 7 \/ d = 8 \/ d = 9) by lia.
  repeat (destruct Hd as [->|Hd]; [reflexivity |]). now subst d.
Qed.

Lemma digits_from_dec_fixed p q acc :
  digits_from acc (dec_fixed p q) = acc * 10 ^ Z.of_nat p + q mod 10 ^ Z.of_nat p.
Proof.
  revert q acc. induction p as [|p IH]; intros q acc.
  - simpl. rewrite Z.mod_1_r. lia.
  - cbn [dec_fixed]. rewrite digits_from_append, IH. cbn [digits_from].
    rewrite digit_char_digit.
    rewrite digit_char_value by (pose proof (Z.mod_pos_bound q 10); lia).
    rewrite Nat2Z.inj_succ, Z.pow_succ_r by lia.
    rewrite (Z.rem_mul_r q 10 (10 ^ Z.of_nat p)) by lia.
    lia.
Qed.

Lemma digits_from_uint_acc d acc :
  digits_from (Zpos acc) (NilEmpty.string_of_uint d)
  = Zpos (Pos.of_uint_acc d acc).
Proof.
  revert acc. induction d as [|d IH|d IH|d IH|d IH|d IH|d IH|d IH|d IH|d IH|d IH];
    intros acc; [reflexivity | ..];
    cbn [NilEmpty.string_of_uint digits_from Pos.of_uint_acc];
    match goal with
    | |- context [is_digit ?c] =>
        let v := eval vm_compute in (digit_value c) in
        change (is_digit c) with true; change (digit_value c) with v
    end;
    cbv iota; rewrite <- IH; f_equal; lia.
Qed.

Lemma digits_from_uint d :
  digits_from 0 (NilEmpty.string_of_uint d) = Z.of_N (Pos.of_uint d).
Proof.
  induction d as [|d IH|d IH|d IH|d IH|d IH|d IH|d IH|d IH|d IH|d IH];
    [reflexivity | exact IH | ..];
    cbn [NilEmpty.string_of_uint digits_from Pos.of_uint Z.of_N];
    apply (digits_from_uint_acc d).
Qed.

(** The decimal numeral of a natural number reads back as that number. *)
Lemma digits_value_dec n : 0 <= n -> digits_value (dec n) = n.
Proof.
  intros Hn. unfold digits_value, dec.
  assert (Hback : Z.of_N (N.of_uint (N.to_uint (Z.to_N n))) = n)
    by (rewrite DecimalN.Unsigned.of_to; lia).
  unfold N.of_uint in Hback.
  remember (N.to_uint (Z.to_N n)) as d eqn:E. clear E.
  destruct d; unfold NilZero.string_of_uint;
    first [ rewrite digits_from_uint; exact Hback
          | rewrite <- Hback; reflexivity ].
Qed.

(** The digits of fixed-point output are those of the scaled integer. *)
Lemma digits_value_fixed_point p q neg :
  0 <= q -> digits_value (sign_str neg ++ fixed_point p q) = q.
Proof.
  intros Hq. unfold digits_value. rewrite digits_from_append.
  assert (Hsign : digits_from 0 (sign_str neg) = 0) by now destruct neg.
  rewrite Hsign. unfold fixed_point. rewrite digits_from_append.
  fold (digits_value (dec (q / 10 ^ Z.of_nat p))).
  rewrite digits_value_dec by (apply Z.div_pos; lia).
  destruct p as [|p].
  - simpl. now rewrite Z.div_1_r.
  - change ("." ++ dec_fixed (S p) q) with (String "." (dec_fixed (S p) q)).
    cbn [digits_from]. change (is_digit ".") with false. cbv iota.
    rewrite digits_from_dec_fixed.
    pose proof (Z.div_mod q (10 ^ Z.of_nat (S p))) as H.
    assert (10 ^ Z.of_nat (S p) <> 0) by (apply Z.pow_nonzero; lia).
    lia.
Qed.

Lemma has_minus_fixed_point p q neg :
  has_minus (sign_str neg ++ fixed_point p q) = neg.
Proof.
  destruct neg; [reflexivity |]. simpl. unfold fixed_point.
  pose proof (dec_digits (q / 10 ^ Z.of_nat p)) as Hd.
  pose proof (dec_nonempty (q / 10 ^ Z.of_nat p)) as Hne.
  destruct (dec (q / 10 ^ Z.of_nat p)) as [|a rest]; [easy |].
  simpl. unfold all_digits in Hd. simpl in Hd.
  apply andb_true_iff in Hd as [Ha _].
  destruct (Ascii.eqb_spec a "-") as [->|]; [discriminate | reflexivity].
Qed.

(** ** Fixed-point output is correctly rounded *)

Lemma round_half_even_nearest n d :
  0 < d ->
  let q := round_half_even n d in
  2 * Z.abs (q * d - n) <= d /\ (2 * Z.abs (q * d - n) = d -> Z.even q = true).
Proof.
  intros Hd. unfold round_half_even.
  pose proof (Z.div_mod n d) as Hdm.
  pose proof (Z.mod_pos_bound n d Hd) as Hb.
  assert (Hn : n = d * (n / d) + n mod d) by (apply Hdm; lia).
  set (q0 := n / d) in *. set (r := n mod d) in *.
  destruct (Z.compare_spec (2 * r) d) as [He|Hl|Hg]; cbv zeta.
  - destruct (Z.even q0) eqn:Hev.
    + split; [nia | auto].
    + split; [nia |]. intros _. rewrite Z.even_add, Hev. reflexivity.
  - split; [nia | intros H; exfalso; nia].
  - split; [nia | intros H; exfalso; nia].
Qed.

Lemma round_half_even_nonneg n d : 0 <= n -> 0 < d -> 0 <= round_half_even n d.
Proof.
  intros Hn Hd. unfold round_half_even.
  pose proof (Z.div_pos n d Hn Hd).
  destruct (2 * (n mod d) ?= d); [destruct (Z.even (n / d)) | |]; lia.
Qed.

Lemma scaled_nonneg p m e : 0 <= scaled p m e.
Proof.
  unfold scaled. destruct e as [|k|k].
  - rewrite Z.pow_0_r. nia.
  - assert (0 < 2 ^ Zpos k) by (apply Z.pow_pos_nonneg; lia).
    assert (0 < 10 ^ Z.of_nat p) by (apply Z.pow_pos_nonneg; lia). nia.
  - apply round_half_even_nonneg.
    + assert (0 < 10 ^ Z.of_nat p) by (apply Z.pow_pos_nonneg; lia). nia.
    + apply Z.pow_pos_nonneg; lia.
Qed.

Lemma scaled_rounds p s m e : rounds_to p (S754_finite s m e) (scaled p m e).
Proof.
  unfold rounds_to, scaled, numerator, denominator.
  destruct e as [|k|k].
  - change (Z.max 0 0) with 0. change (Z.max (- 0) 0) with 0.
    rewrite !Z.pow_0_r. cbv zeta.
    generalize (Zpos m * 1 * 10 ^ Z.of_nat p). intros X. split; lia.
  - assert (H1 : Z.max (Zpos k) 0 = Zpos k) by lia.
    assert (H2 : Z.max (- Zpos k) 0 = 0) by lia.
    rewrite H1, H2, Z.pow_0_r. cbv zeta.
    generalize (Zpos m * 2 ^ Zpos k * 10 ^ Z.of_nat p). intros X. split; lia.
  - assert (H1 : Z.max (Zneg k) 0 = 0) by lia.
    assert (H2 : Z.max (- Zneg k) 0 = Zpos k) by lia.
    rewrite H1, H2, Z.pow_0_r, Z.mul_1_r.
    apply round_half_even_nearest. apply Z.pow_pos_nonneg; lia.
Qed.

(** [format(x, '.pf')] writes [x] rounded to [p] decimal places. *)
Lemma format_f_shows (p : nat) (x : float) :
  (0 < p)%nat -> shows p x (format_f p x).
Proof.
  intros Hp. unfold shows.
  destruct x as [s|s| |s m e]; cbn [is_finite format_f negative].
  - split; [intros _ | repeat split; discriminate].
    split; [now apply fixed_point_decimals |].
    split; [apply has_minus_fixed_point |].
    rewrite digits_value_fixed_point by lia.
    unfold rounds_to, numerator, denominator. simpl. split; lia.
  - split; [discriminate |].
    split; [discriminate |].
    split; intros H; injection H as ->; reflexivity.
  - split; [discriminate |]. repeat split; discriminate.
  - split; [intros _ | repeat split; discriminate].
    split; [now apply fixed_point_decimals |].
    split; [apply has_minus_fixed_point |].
    rewrite digits_value_fixed_point by apply scaled_nonneg.
    apply scaled_rounds.
Qed.

Lemma digit_numeral a : is_digit a = true -> numeral_char a = true.
Proof. unfold numeral_char. now intros ->. Qed.

Lemma digit_stamp a : is_digit a = true -> stamp_char a = true.
Proof. unfold stamp_char. now intros ->. Qed.

Lemma digits_numeral s : all_digits s = true -> every numeral_char s = true.
Proof. apply every_weaken, digit_numeral. Qed.

Lemma digits_stamp s : all_digits s = true -> every stamp_char s = true.
Proof. apply every_weaken, digit_stamp. Qed.

Lemma sign_numeral neg : every numeral_char (sign_str neg) = true.
Proof. now destruct neg. Qed.

Lemma fixed_point_numeral p q : every numeral_char (fixed_point p q) = true.
Proof.
  unfold fixed_point. rewrite every_append, (digits_numeral _ (dec_digits _)).
  destruct p as [|p]; [reflexivity |].
  rewrite every_append, (digits_numeral _ (dec_fixed_digits _ _)). reflexivity.
Qed.

Lemma format_f_numeral p x : every numeral_char (format_f p x) = true.
Proof.
  destruct x as [s|s| |s m e]; simpl; try reflexivity;
    rewrite every_append, sign_numeral; try reflexivity;
    apply fixed_point_numeral.
Qed.

Lemma exponent_str_numeral x : every numeral_char (exponent_str x) = true.
Proof.
  unfold exponent_str.
  rewrite !every_append, (digits_numeral _ (dec_digits _)).
  now destruct (x <? 0), (Z.abs x <? 10).
Qed.

Lemma repr_digits_numeral ds k :
  every numeral_char ds = true -> every numeral_char (repr_digits ds k) = true.
Proof.
  intros Hds. unfold repr_digits.
  repeat match goal with
         | |- context [if ?b then _ else _] => destruct b
         end;
    rewrite ?every_append, ?exponent_str_numeral, ?every_take, ?every_drop,
      ?every_replicate, ?Hds by (assumption || reflexivity);
    reflexivity.
Qed.

Lemma repr_numeral x : every numeral_char (repr x) = true.
Proof.
  destruct x as [s|s| |s m e]; simpl; try reflexivity;
    try (rewrite every_append, sign_numeral; reflexivity).
  destruct (shortest m e) as [d k].
  rewrite every_append, sign_numeral.
  apply repr_digits_numeral, digits_numeral, dec_digits.
Qed.

Lemma strftime_stamp t : every stamp_char (Clock.strftime t) = true.
Proof.
  unfold Clock.strftime.
  rewrite !every_append, !(digits_stamp _ (dec_fixed_digits _ _)).
  reflexivity.
Qed.

(** Neither numerals nor timestamps contain a comma or a line feed. *)
Lemma numeral_lacks c s :
  numeral_char c = false -> every numeral_char s = true -> lacks c s = true.
Proof.
  intros Hc. apply every_weaken. intros a Ha.
  destruct (Ascii.eqb_spec a c) as [->|]; [congruence | reflexivity].
Qed.

Lemma stamp_lacks c s :
  stamp_char c = false -> every stamp_char s = true -> lacks c s = true.
Proof.
  intros Hc. apply every_weaken. intros a Ha.
  destruct (Ascii.eqb_spec a c) as [->|]; [congruence | reflexivity].
Qed.

End TextFacts.

(* ===================================================================== *)
(** * The shape of a record *)
(* ===================================================================== *)

Module RecordFacts.

Import Str StrFacts TextFacts PyFloat Sys App Obs.

Lemma lacks_join c sep parts :
  lacks c sep = true -> forallb (lacks c) parts = true ->
  lacks c (join sep parts) = true.
Proof.
  intros Hsep. unfold lacks, join in *.
  induction parts as [|w ws IH]; [reflexivity |].
  simpl forallb. intros H. apply andb_true_iff in H as [Hw Hws].
  destruct ws as [|w' ws]; [exact Hw |].
  change (String.concat sep (w :: w' :: ws))
    with (w ++ sep ++ String.concat sep (w' :: ws)).
  now rewrite !every_append, Hw, Hsep, (IH Hws).
Qed.

(** No field of a record contains a comma or a line feed. *)
Lemma header_fields_lack c t r :
  numeral_char c = false -> stamp_char c = false ->
  forallb (lacks c) (header_fields t r) = true.
Proof.
  intros Hn Hs. unfold header_fields. cbn [forallb].
  rewrite (stamp_lacks c _ Hs (strftime_stamp t)).
  rewrite !(numeral_lacks c _ Hn (format_f_numeral _ _)).
  rewrite !(numeral_lacks c _ Hn (repr_numeral _)).
  reflexivity.
Qed.

Lemma trace_fields_lack c r :
  numeral_char c = false -> forallb (lacks c) (trace_fields r) = true.
Proof.
  intros Hn. unfold trace_fields.
  induction (trace_data r) as [|x xs IH]; [reflexivity |].
  cbn [map forallb].
  now rewrite (numeral_lacks c _ Hn (format_f_numeral _ _)), IH.
Qed.

Lemma header_line_one_line t r : lacks LF (header_line t r) = true.
Proof.
  unfold header_line, lacks. rewrite every_append.
  fold (lacks LF (join "," (header_fields t r))).
  rewrite lacks_join; [reflexivity | reflexivity |].
  now apply header_fields_lack.
Qed.

Lemma trace_line_one_line r : lacks LF (trace_line r) = true.
Proof.
  unfold trace_line, lacks. rewrite every_append.
  fold (lacks LF (join "," (trace_fields r))).
  rewrite lacks_join; [reflexivity | reflexivity |].
  now apply trace_fields_lack.
Qed.

(** The two strings a tick writes are the header line and the trace line,
    each closed by a line feed, and one more line feed. *)
Lemma header_text_line t r : header_text t r = header_line t r ++ nl.
Proof.
  unfold header_text, header_fstring, header_line, header_fields, join.
  cbn [String.concat]. rewrite !append_assoc. reflexivity.
Qed.

Lemma trace_text_line r : trace_text r = trace_line r ++ nl ++ nl.
Proof.
  unfold trace_text, trace_fstring, trace_line, trace_fields.
  rewrite !append_assoc. reflexivity.
Qed.

(** A record is three lines: header, trace, blank. *)
Lemma record_lines t r :
  split_on LF (header_text t r ++ trace_text r) =
  [header_line t r; trace_line r; ""; ""].
Proof.
  rewrite header_text_line, trace_text_line, append_assoc.
  change (nl ++ trace_line r ++ nl ++ nl)
    with (String LF (trace_line r ++ String LF (String LF ""))).
  rewrite (split_on_append LF _ _ (header_line_one_line t r)).
  rewrite (split_on_append LF _ _ (trace_line_one_line r)).
  reflexivity.
Qed.

(** The header line splits into the timestamp, the nine settings and the
    marker. *)
Lemma header_line_split t r :
  split_on "," (header_line t r) = (header_fields t r ++ ["*"])%list.
Proof.
  unfold header_line.
  change (join "," (header_fields t r) ++ ",*")
    with (join (String "," "") (header_fields t r) ++ String "," "*").
  apply split_on_join; [now apply header_fields_lack | reflexivity | easy].
Qed.

(** The trace line splits into the amplitudes and the marker. *)
Lemma trace_line_split r :
  split_on "," (trace_line r) = (trace_tokens r ++ ["@"])%list.
Proof.
  unfold trace_line, trace_tokens.
  destruct (trace_data r) as [|x xs] eqn:Htr.
  - unfold trace_fields. rewrite Htr. reflexivity.
  - change (join "," (trace_fields r) ++ ",@")
      with (join (String "," "") (trace_fields r) ++ String "," "@").
    apply split_on_join; [now apply trace_fields_lack | reflexivity |].
    unfold trace_fields. rewrite Htr. discriminate.
Qed.

Lemma trace_tokens_nonempty r :
  trace_data r <> [] -> trace_tokens r = trace_fields r.
Proof. unfold trace_tokens. now destruct (trace_data r). Qed.

(** Every amplitude is written rounded to two decimal places. *)
Lemma trace_fields_show r : Forall2 (shows 2) (trace_data r) (trace_fields r).
Proof.
  unfold trace_fields. induction (trace_data r) as [|x xs IH]; constructor.
  - apply format_f_shows. lia.
  - exact IH.
Qed.

Lemma header_line_marker t r : endswith (header_line t r) "*" = true.
Proof.
  unfold header_line.
  change (join "," (header_fields t r) ++ ",*")
    with (join "," (header_fields t r) ++ String "," "*").
  change (join "," (header_fields t r) ++ String "," "*")
    with (join "," (header_fields t r) ++ "," ++ "*").
  rewrite <- append_assoc. apply endswith_append.
Qed.

Lemma trace_line_marker r : endswith (trace_line r) "@" = true.
Proof.
  unfold trace_line.
  change (join "," (trace_fields r) ++ ",@")
    with (join "," (trace_fields r) ++ "," ++ "@").
  rewrite <- append_assoc. apply endswith_append.
Qed.

End RecordFacts.

(* ===================================================================== *)
(** * The models of the builtins on known values *)
(* ===================================================================== *)

Module Checks.

Import Str PyFloat Sys App Obs Bench.

(** [repr] of floats whose Python text is well known. *)
Example repr_known :
  map repr
    [ of_Z 1; of_Z (-10); ratio 1 10; ratio 1 3; ratio 15 10;
      ratio 1 10000; ratio 1 100000; of_Z (10 ^ 15); of_Z (10 ^ 16);
      of_Z (10 ^ 22); of_Z (2 ^ 53);
      SFadd prec emax (ratio 1 10) (ratio 2 10);
      S754_finite false 1 (-1074);
      S754_finite false (2 ^ 53 - 1) 971;
      S754_zero true; S754_infinity true; S754_nan ]
  = [ "1.0"; "-10.0"; "0.1"; "0.3333333333333333"; "1.5";
      "0.0001"; "1e-05"; "1000000000000000.0"; "1e+16";
      "1e+22"; "9007199254740992.0";
      "0.30000000000000004";
      "5e-324";
      "1.7976931348623157e+308";
      "-0.0"; "-inf"; "nan" ].
Proof. vm_compute. reflexivity. Qed.

(** Fixed-point output rounds the exact binary value, ties to even, and
    keeps the sign of a negative number that rounds to zero. *)
Example format_f_known :
  [ format_f 2 (ratio 1 8); format_f 2 (ratio 3 8); format_f 2 (ratio 5 1000);
    format_f 2 (ratio (-1) 1000); format_f 1 (ratio 25 100);
    format_f 3 (of_Z 100); format_f 2 (ratio (-50123) 1000);
    format_f 2 (S754_infinity true); format_f 6 S754_nan ]
  = [ "0.12"; "0.38"; "0.01"; "-0.00"; "0.2"; "100.000"; "-50.12";
      "-inf"; "nan" ].
Proof. vm_compute. reflexivity. Qed.

Example sweep_time_ms_example : mul (ratio 1 100) lit_1000_0 = of_Z 10.
Proof. vm_compute. reflexivity. Qed.

Example strftime_example : Clock.strftime morning = "2024-07-12 10:00:00".
Proof. vm_compute. reflexivity. Qed.

(** The end-to-end example of the specification: the first tick on a
    fresh file writes these two lines and a blank one. *)
Example first_tick_example :
  rfi (after update_plot (bench example) (initUI None))
  = Some ("2024-07-12 10:00:00,100.000000,1.000000000,100.000,100.000,-10.0,10.0,10.0,0.0,1.0,*"
          ++ nl ++ "-50.12,-60.46,@" ++ nl ++ nl).
Proof. vm_compute. reflexivity. Qed.

(** A tick on a full disk: the header write raises, the file is closed,
    the error is reported, and the plot is not touched. *)
Example full_disk_tick :
  let s' := after update_plot (full_disk example) started in
  skipn 10 (happened started s')
  = [ done (FileOpen "12_july.rfi" "a");
      failed (FileWrite (header_text morning example)) disk_full;
      done FileClose;
      done (StdoutPrint "Error updating plot: No space left on device");
      done (MsgCritical "Error" "Error updating plot: No space left on device") ]
  /\ rfi s' = rfi started /\ ax s' = None /\ pause s' = false.
Proof. vm_compute. repeat split. Qed.

(** A tick on a disk that fails when the file is closed: what reached
    the disk of the record stays in the file, the error is reported, and
    the plot is not touched. *)
Example unplugged_tick :
  let s' := after update_plot (unplugged 32 example) started in
  rfi s' = Some ("earlier" ++ nl ++ "2024-07-12 10:00:00,100.000000,1") /\
  skipn 13 (happened started s')
  = [ failed FileClose io_error;
      done (StdoutPrint "Error updating plot: Input/output error");
      done (MsgCritical "Error" "Error updating plot: Input/output error") ]
  /\ ax s' = None /\ pause s' = false.
Proof. vm_compute. repeat split. Qed.

(** A tick with a canvas that fails to redraw: the record is in the file
    and the axes exist, the error is reported. *)
Example blind_tick :
  let s' := after update_plot (blind example) started in
  appended started s' = header_text morning example ++ trace_text example /\
  ax s' = Some Subplot111 /\
  skipn 21 (happened started s')
  = [ failed CanvasDraw no_display;
      done (StdoutPrint "Error updating plot: canvas is gone");
      done (MsgCritical "Error" "Error updating plot: canvas is gone") ].
Proof. vm_compute. repeat split. Qed.

End Checks.

(* ===================================================================== *)
(** * Running the callbacks *)
(* ===================================================================== *)

Module TickFacts.

Import Str StrFacts PyFloat Sys App Obs.
Local Open Scope py_scope.

(** ** One step of a computation *)

Lemma run_query_ascii_values {B} cmd v (k : list float -> M B) E s :
  sa_query_ascii_values E cmd = Ok v ->
  (x <- query_ascii_values cmd ;; k x) E s
  = k v E (emit (done (SaQueryAsciiValues cmd)) s).
Proof. intros H. unfold bind, query_ascii_values, ask. now rewrite H. Qed.

Lemma run_query_float {B} cmd v (k : float -> M B) E s :
  sa_query_float E cmd = Ok v ->
  (x <- query_float cmd ;; k x) E s = k v E (emit (done (SaQuery cmd)) s).
Proof. intros H. unfold bind, query_float, ask. now rewrite H. Qed.

Lemma run_datetime_now {B} (k : Clock.datetime -> M B) E s :
  (t <- datetime_now ;; k t) E s = k (now E) E s.
Proof. reflexivity. Qed.

Lemma run_write {B} cmd (k : unit -> M B) E s :
  sa_write E cmd = None ->
  (x <- write cmd ;; k x) E s = k tt E (emit (done (SaWrite cmd)) s).
Proof. intros H. unfold bind, write, tell. now rewrite H. Qed.

Lemma run_write_raise {B} cmd e (k : unit -> M B) E s :
  sa_write E cmd = Some e ->
  (x <- write cmd ;; k x) E s = (Raise e, emit (failed (SaWrite cmd) e) s).
Proof. intros H. unfold bind, write, tell. now rewrite H. Qed.

Lemma run_plot_call {B} c (k : unit -> M B) E s :
  mpl E c = None ->
  (x <- plot_call c ;; k x) E s = k tt E (emit (done c) s).
Proof. intros H. unfold bind, plot_call, tell. now rewrite H. Qed.

Lemma skipn_length_app {A} (l l' : list A) :
  skipn (List.length l) (l ++ l') = l'.
Proof. induction l as [|x l IH]; [reflexivity | exact IH]. Qed.

Lemma happened_app s s' evs : log s' = (log s ++ evs)%list -> happened s s' = evs.
Proof. unfold happened. intros ->. apply skipn_length_app. Qed.

Lemma appended_app s s' text :
  contents s' = contents s ++ text -> appended s s' = text.
Proof. unfold appended. intros ->. apply drop_append. Qed.

(** ** What a computation leaves alone *)

Lemma keeps_ret {A X} (f : state -> X) (a : A) : keeps f (ret a).
Proof. easy. Qed.

Lemma keeps_bind {A B X} (f : state -> X) (m : M A) (k : A -> M B) :
  keeps f m -> (forall a, keeps f (k a)) -> keeps f (bind m k).
Proof.
  intros Hm Hk E s. unfold bind. specialize (Hm E s).
  destruct (m E s) as [[a|e] s1]; simpl in *; [| exact Hm].
  now rewrite (Hk a E s1).
Qed.

Lemma keeps_try_except {A X} (f : state -> X) (m : M A) h :
  keeps f m -> (forall e, keeps f (h e)) -> keeps f (try_except m h).
Proof.
  intros Hm Hh E s. unfold try_except. specialize (Hm E s).
  destruct (m E s) as [[a|e] s1]; simpl in *; [exact Hm |].
  now rewrite (Hh e E s1).
Qed.

Lemma keeps_ask {A X} (f : state -> X) c (answer : env -> res A) :
  (forall ev s, f (emit ev s) = f s) -> keeps f (ask c answer).
Proof. intros Hf E s. unfold ask. destruct (answer E); simpl; apply Hf. Qed.

Lemma keeps_tell {X} (f : state -> X) c answer :
  (forall ev s, f (emit ev s) = f s) -> keeps f (tell c answer).
Proof. intros Hf E s. unfold tell. destruct (answer E); simpl; apply Hf. Qed.

Lemma keeps_ui {X} (f : state -> X) c :
  (forall ev s, f (emit ev s) = f s) -> keeps f (ui c).
Proof. intros Hf E s. apply Hf. Qed.

Lemma keeps_file_write {X} (f : state -> X) file data :
  (forall ev s, f (emit ev s) = f s) ->
  (forall t s, f (set_rfi t s) = f s) -> keeps f (file_write file data).
Proof.
  intros He Hr E s. unfold file_write.
  destruct (os_write E data); simpl; now rewrite He, ?Hr.
Qed.

Lemma keeps_with_open_append {X} (f : state -> X) path body :
  (forall ev s, f (emit ev s) = f s) ->
  (forall t s, f (set_rfi t s) = f s) ->
  (forall file, keeps f (body file)) -> keeps f (with_open_append path body).
Proof.
  intros He Hr Hb E s. unfold with_open_append.
  destruct (os_open E path "a"); simpl; [apply He |].
  specialize (Hb "" E (emit (done (FileOpen path "a"))
                         (set_rfi (Some (contents s)) s))).
  destruct (body "" E _) as [[file|e] s2]; simpl in Hb;
    destruct (os_close E); simpl; now rewrite ?He, ?Hr, Hb, He, Hr.
Qed.

(** The flag is only written by [pause_updates] and [resume_updates]. *)
Lemma update_plot_try_keeps_pause : keeps pause update_plot_try.
Proof.
  unfold update_plot_try, query_ascii_values, query_float, plot_call.
  repeat first
    [ apply keeps_bind; [| intros ?]
    | apply keeps_ask; reflexivity
    | apply keeps_tell; reflexivity
    | apply keeps_with_open_append; [reflexivity | reflexivity | intros ?]
    | apply keeps_file_write; reflexivity
    | apply keeps_ret
    | match goal with |- keeps _ (match ?a with _ => _ end) => destruct a end
    | easy ].
Qed.

Lemma update_plot_except_keeps_pause e : keeps pause (update_plot_except e).
Proof. easy. Qed.

(** The plot statements and the error report never touch the log file. *)
Lemma render_keeps_rfi tr : keeps rfi (render tr).
Proof.
  unfold render, plot_call.
  repeat first
    [ apply keeps_bind; [| intros ?]
    | apply keeps_tell; reflexivity
    | apply keeps_ret
    | match goal with |- keeps _ (match ?a with _ => _ end) => destruct a end
    | easy ].
Qed.

Lemma update_plot_except_keeps_rfi e : keeps rfi (update_plot_except e).
Proof. easy. Qed.

(** ** The three parts of a tick *)

Lemma queried_frame s :
  pause (queried s) = pause s /\ ax (queried s) = ax s /\
  rfi (queried s) = rfi s /\
  log (queried s) = (log s ++ map done query_calls)%list.
Proof.
  repeat split. unfold queried. cbn [fold_left query_calls emit log map].
  now rewrite <- !app_assoc.
Qed.

(** Once the ten queries are answered, what is left of the [try] body is
    the logging of the sample and the plot update. *)
Lemma update_plot_try_answers E s r :
  answers E r ->
  update_plot_try E s
  = (log_sample (now E) r ;; render (trace_data r)) E (queried s).
Proof.
  intros (H0 & H1 & H2 & H3 & H4 & H5 & H6 & H7 & H8 & H9).
  unfold update_plot_try.
  rewrite (run_query_ascii_values _ _ _ _ _ H0). cbv beta.
  rewrite run_datetime_now. cbv beta zeta.
  rewrite (run_query_float _ _ _ _ _ H1). cbv beta zeta.
  rewrite (run_query_float _ _ _ _ _ H2). cbv beta zeta.
  rewrite (run_query_float _ _ _ _ _ H3). cbv beta zeta.
  rewrite (run_query_float _ _ _ _ _ H4). cbv beta zeta.
  rewrite (run_query_float _ _ _ _ _ H5). cbv beta zeta.
  rewrite (run_query_float _ _ _ _ _ H6). cbv beta zeta.
  rewrite (run_query_float _ _ _ _ _ H7). cbv beta zeta.
  rewrite (run_query_float _ _ _ _ _ H8). cbv beta zeta.
  rewrite (run_query_float _ _ _ _ _ H9). cbv beta zeta.
  reflexivity.
Qed.

(** Logging a sample to a writable file hands over the two strings; they
    are in the file once it is closed, and only the part that was flushed
    when the closing raises. *)
Lemma log_sample_writable E s t r :
  writable E ->
  exists s2,
    log_sample t r E s
    = (match os_close E with Some e => Raise e | None => Ok tt end, s2) /\
    pause s2 = pause s /\ ax s2 = ax s /\
    rfi s2
    = Some (contents s
            ++ match os_close E with
               | None => header_text t r ++ trace_text r
               | Some _ => flushed E (header_text t r ++ trace_text r)
               end) /\
    log s2 = (log s ++ map done [ FileOpen rfi_file_path "a";
                                  FileWrite (header_text t r);
                                  FileWrite (trace_text r) ]
                    ++ [closing E])%list.
Proof.
  intros [Hopen Hwrite].
  unfold log_sample, with_open_append, bind, file_write, closing.
  rewrite Hopen, !Hwrite.
  destruct (os_close E) as [e|]; eexists; (split; [reflexivity |]);
    cbn [pause ax rfi log emit set_rfi contents map append];
    rewrite <- !app_assoc; repeat split.
Qed.

(** With a cooperating plot surface the plot update runs through. *)
Lemma render_plot_ok E s r :
  plot_ok E ->
  exists s3,
    render (trace_data r) E s = (Ok tt, s3) /\
    pause s3 = pause s /\ ax s3 = Some Subplot111 /\ rfi s3 = rfi s /\
    log s3 = (log s ++ map done (plot_calls (ax s) r))%list.
Proof.
  intros Hplot. unfold render, plot_calls.
  unfold bind at 1. unfold get_ax at 1. cbv beta iota.
  destruct (ax s) as [[]|] eqn:Hax.
  - unfold bind at 1. unfold ret at 1. cbv beta iota.
    rewrite !(run_plot_call _ _ _ _ (Hplot _)).
    unfold plot_call, tell. rewrite Hplot.
    eexists; split; [reflexivity |].
    cbn [pause ax rfi log emit map app]. rewrite <- !app_assoc.
    now repeat split.
  - unfold bind at 1. rewrite (run_plot_call _ _ _ _ (Hplot _)).
    unfold put_ax at 1. cbv beta iota.
    rewrite !(run_plot_call _ _ _ _ (Hplot _)).
    unfold plot_call, tell. rewrite Hplot.
    eexists; split; [reflexivity |].
    cbn [pause ax rfi log emit set_ax map app]. rewrite <- !app_assoc.
    now repeat split.
Qed.

End TickFacts.

(* ===================================================================== *)
(** * Whole ticks *)
(* ===================================================================== *)

Module LoopFacts.

Import Str StrFacts PyFloat Sys App Obs TickFacts.
Local Open Scope py_scope.

Lemma contents_rfi s s' : rfi s' = rfi s -> contents s' = contents s.
Proof. unfold contents. now intros ->. Qed.

(** A tick of the running loop is the [try] statement. *)
Lemma update_plot_running E s :
  pause s = false ->
  update_plot E s = try_except update_plot_try update_plot_except E s.
Proof. intros Hp. unfold update_plot, bind, get_pause. now rewrite Hp. Qed.

(** A tick of the paused loop does nothing. *)
Lemma update_plot_paused E s : pause s = true -> update_plot E s = (Ok tt, s).
Proof. intros Hp. unfold update_plot, bind, get_pause. now rewrite Hp. Qed.

(** A tick whose [try] body raises ends in the [except] clause. *)
Lemma update_plot_raised E s e s1 :
  pause s = false -> update_plot_try E s = (Raise e, s1) ->
  update_plot E s = (Ok tt, reported e s1).
Proof.
  intros Hp Htry. rewrite (update_plot_running E s Hp).
  unfold try_except. rewrite Htry. reflexivity.
Qed.

(** With every collaborator cooperating a tick runs to its end. *)
Lemma tick_complete E s r :
  pause s = false -> answers E r -> file_ok E -> plot_ok E ->
  exists s',
    update_plot E s = (Ok tt, s') /\
    pause s' = false /\ ax s' = Some Subplot111 /\
    contents s' = contents s ++ header_text (now E) r ++ trace_text r /\
    log s' = (log s ++ map done (query_calls ++ file_calls (now E) r
                                   ++ plot_calls (ax s) r))%list.
Proof.
  intros Hp Hans [Hw Hclose] Hplot.
  rewrite (update_plot_running E s Hp). unfold try_except.
  rewrite (update_plot_try_answers E s r Hans). unfold bind at 1.
  destruct (log_sample_writable E (queried s) (now E) r Hw)
    as (s2 & Hrun & Hp2 & Hax2 & Hrfi2 & Hlog2).
  rewrite Hrun, Hclose.
  destruct (render_plot_ok E s2 r Hplot) as (s3 & Hr & Hp3 & Hax3 & Hrfi3 & Hlog3).
  rewrite Hr. exists s3. split; [reflexivity |].
  destruct (queried_frame s) as (Hpq & Haxq & Hrfiq & Hlogq).
  repeat split.
  - congruence.
  - exact Hax3.
  - unfold contents at 1. rewrite Hrfi3, Hrfi2, Hclose.
    now rewrite (contents_rfi _ _ Hrfiq).
  - rewrite Hlog3, Hlog2, Hlogq, Hax2, Haxq.
    unfold closing. rewrite Hclose. unfold file_calls.
    rewrite !map_app, <- !app_assoc. reflexivity.
Qed.

(** Once the queries are answered and the file operations succeed, the
    record is in the file at the end of the tick, whatever happens to the
    plot. *)
Lemma tick_logged E s r :
  pause s = false -> answers E r -> file_ok E ->
  contents (after update_plot E s)
  = contents s ++ header_text (now E) r ++ trace_text r.
Proof.
  intros Hp Hans [Hw Hclose]. unfold after.
  rewrite (update_plot_running E s Hp). unfold try_except.
  rewrite (update_plot_try_answers E s r Hans). unfold bind at 1.
  destruct (log_sample_writable E (queried s) (now E) r Hw)
    as (s2 & Hrun & _ & _ & Hrfi2 & _).
  destruct (queried_frame s) as (_ & _ & Hrfiq & _).
  rewrite Hclose in Hrun, Hrfi2.
  assert (Hc2 : contents s2
                = contents s ++ header_text (now E) r ++ trace_text r).
  { unfold contents at 1. rewrite Hrfi2. now rewrite (contents_rfi _ _ Hrfiq). }
  rewrite Hrun.
  pose proof (render_keeps_rfi (trace_data r) E s2) as Hk.
  destruct (render (trace_data r) E s2) as [[[]|e] s3]; simpl in Hk.
  - simpl. now rewrite (contents_rfi _ _ Hk).
  - rewrite <- Hc2, <- (contents_rfi _ _ Hk).
    apply contents_rfi, update_plot_except_keeps_rfi.
Qed.

End LoopFacts.

(** ** A tick that is cut short *)

Module AbortFacts.

Import Str StrFacts PyFloat Sys App Obs TickFacts LoopFacts.
Local Open Scope py_scope.

(** Case analysis on the next answer a computation waits for. *)
Ltac next_answer H :=
  match type of H with
  | context [match ?X with _ => _ end] =>
      lazymatch X with
      | sa_query_ascii_values _ _ => idtac
      | sa_query_float _ _ => idtac
      | os_open _ _ _ => idtac
      | os_write _ _ => idtac
      | os_close _ => idtac
      | mpl _ _ => idtac
      | ax _ => idtac
      end;
      destruct X eqn:?; cbv beta iota zeta in H
  end.

(** The events of a state reached by logging on top of [s]. *)
Ltac read_log :=
  cbn [log emit set_rfi set_ax]; rewrite <- ?app_assoc; reflexivity.

(** When the [try] body of a tick raises, its events are calls that
    succeeded, the call that raised, and at most the closing of the log
    file: nothing else of the tick is run. *)
Lemma update_plot_try_aborts E s e s1 :
  update_plot_try E s = (Raise e, s1) ->
  exists evs, log s1 = (log s ++ evs)%list /\ aborted evs = true.
Proof.
  intros H.
  cbv [update_plot_try bind query_ascii_values query_float ask tell
       datetime_now with_open_append file_write plot_call get_ax put_ax ret]
    in H.
  repeat (next_answer H;
          try (injection H as <- <-; eexists; split; [read_log | reflexivity]));
    discriminate H.
Qed.

(** When the plot update raises, a plot call raised. *)
Lemma render_raises tr E s e s1 :
  render tr E s = (Raise e, s1) ->
  exists c, is_plot_call (failed c e) = true /\ mpl E c = Some e /\
            In (failed c e) (log s1).
Proof.
  intros H.
  cbv [render bind tell plot_call get_ax put_ax ret] in H.
  repeat (next_answer H;
          try (injection H as <- <-; eexists;
               split;
               [| split; [eassumption
                         | cbn [log emit set_ax]; apply in_or_app; right;
                           now left]];
               reflexivity));
    discriminate H.
Qed.

Lemma update_plot_keeps_pause : keeps pause update_plot.
Proof.
  unfold update_plot, get_pause. intros E s. unfold bind.
  destruct (negb (pause s)); [| reflexivity].
  apply keeps_try_except.
  - apply update_plot_try_keeps_pause.
  - apply update_plot_except_keeps_pause.
Qed.

End AbortFacts.

(* ===================================================================== *)
(** * Properties of the sampler-logger loop *)
(* ===================================================================== *)

Import Str StrFacts TextFacts PyFloat Sys App Obs RecordFacts TickFacts LoopFacts.

Lemma complete_tick_file_calls t r a :
  map ev_call
    (filter is_file_call
       (map done (query_calls ++ file_calls t r ++ plot_calls a r)))
  = file_calls t r.
Proof. destruct a; reflexivity. Qed.

Lemma complete_tick_messages t r a :
  filter is_message (map done (query_calls ++ file_calls t r ++ plot_calls a r))
  = [].
Proof. destruct a; reflexivity. Qed.

Lemma bench_answers r : answers (Bench.bench r) r.
Proof. repeat split. Qed.

Lemma bench_file_ok r : file_ok (Bench.bench r).
Proof. repeat split. Qed.

Lemma bench_plot_ok r : plot_ok (Bench.bench r).
Proof. intros c. reflexivity. Qed.

(** C1, as the code has it. A tick of the running loop in which every
    query, every file operation and every plot call succeeds returns
    normally and appends exactly one record to the log file: the appended
    text is three lines, a header line ending in [*], a trace line made
    of the amplitudes joined by commas and closed by [,@], and a blank
    line. Each amplitude is written rounded to two decimal places when it
    is a finite number, and as [nan], [inf] or [-inf] otherwise. The only
    file calls of the tick are the opening, the two writes of that text
    and the closing, and no message box is shown. *)
Theorem C1_completed_tick_appends_one_record E s r :
  pause s = false -> answers E r -> file_ok E -> plot_ok E ->
  let s' := after update_plot E s in
  update_plot E s = (Ok tt, s') /\
  contents s' = contents s ++ appended s s' /\
  split_on LF (appended s s') = [header_line (now E) r; trace_line r; ""; ""] /\
  endswith (header_line (now E) r) "*" = true /\
  endswith (trace_line r) "@" = true /\
  trace_line r = join "," (trace_fields r) ++ ",@" /\
  Forall2 (shows 2) (trace_data r) (trace_fields r) /\
  (trace_data r <> [] ->
   split_on "," (trace_line r) = (trace_fields r ++ ["@"])%list) /\
  map ev_call (filter is_file_call (happened s s')) = file_calls (now E) r /\
  filter is_message (happened s s') = [].
Proof.
  intros Hp Hans Hfile Hplot s'.
  destruct (tick_complete E s r Hp Hans Hfile Hplot)
    as (s1 & Hrun & _ & _ & Hc & Hlog).
  assert (Hs' : s' = s1) by (unfold s', after; now rewrite Hrun).
  rewrite Hs'. clear s' Hs'.
  rewrite (appended_app _ _ _ Hc), (happened_app _ _ _ Hlog).
  split; [exact Hrun |].
  split; [exact Hc |].
  split; [apply record_lines |].
  split; [apply header_line_marker |].
  split; [apply trace_line_marker |].
  split; [reflexivity |].
  split; [apply trace_fields_show |].
  split.
  { intros Hne. rewrite trace_line_split. now rewrite trace_tokens_nonempty. }
  split; [apply complete_tick_file_calls | apply complete_tick_messages].
Qed.

Lemma C1_witness :
  pause Bench.started = false /\
  answers (Bench.bench Bench.example) Bench.example /\
  file_ok (Bench.bench Bench.example) /\
  plot_ok (Bench.bench Bench.example) /\
  split_on LF
    (appended Bench.started
       (after update_plot (Bench.bench Bench.example) Bench.started))
  = [ "2024-07-12 10:00:00,100.000000,1.000000000,100.000,100.000,-10.0,10.0,10.0,0.0,1.0,*";
      "-50.12,-60.46,@"; ""; "" ].
Proof.
  assert (H1 : pause Bench.started = false) by reflexivity.
  repeat (split; [first [assumption | apply bench_answers
                        | apply bench_file_ok | apply bench_plot_ok] |]).
  rewrite (proj1 (proj2 (proj2
    (C1_completed_tick_appends_one_record _ _ _ H1
       (bench_answers _) (bench_file_ok _) (bench_plot_ok _))))).
  vm_compute. reflexivity.
Defined.

(** A trace holding infinite amplitudes and a NaN is logged with the
    fields [inf], [-inf] and [nan], which have no decimal places, by a
    tick in which every query, file operation and plot call succeeds: the
    record of such a tick is not the one C1 describes. *)
Lemma C1_counterexample :
  let r := Bench.with_trace
             [ Bench.ratio (-50123) 1000; S754_infinity false;
               S754_infinity true; S754_nan ]
             Bench.example in
  let s' := after update_plot (Bench.bench r) Bench.started in
  pause Bench.started = false /\ answers (Bench.bench r) r /\
  file_ok (Bench.bench r) /\ plot_ok (Bench.bench r) /\
  update_plot (Bench.bench r) Bench.started = (Ok tt, s') /\
  filter is_message (happened Bench.started s') = [] /\
  split_on LF (appended Bench.started s')
  = [ "2024-07-12 10:00:00,100.000000,1.000000000,100.000,100.000,-10.0,10.0,10.0,0.0,1.0,*";
      "-50.12,inf,-inf,nan,@"; ""; "" ] /\
  split_on "," "-50.12,inf,-inf,nan,@" = ["-50.12"; "inf"; "-inf"; "nan"; "@"] /\
  map (has_decimals 2) ["-50.12"; "inf"; "-inf"; "nan"]
  = [true; false; false; false].
Proof.
  intros r s'.
  split; [reflexivity |]. split; [apply bench_answers |].
  split; [apply bench_file_ok |]. split; [apply bench_plot_ok |].
  vm_compute. repeat split.
Qed.

(** C5. When the trace query of a tick raises, the log file is left as it
    was, not even created: the tick consists of the failed query, the
    printed error and the message box, and makes no file call. *)
Theorem C5_trace_failure_leaves_log_unchanged E s e :
  pause s = false ->
  sa_query_ascii_values E "TRACE:DATA? TRACE1" = Raise e ->
  let s' := after update_plot E s in
  rfi s' = rfi s /\
  contents s' = contents s /\
  filter is_file_call (happened s s') = [] /\
  happened s s'
  = [ failed (SaQueryAsciiValues "TRACE:DATA? TRACE1") e;
      done (StdoutPrint ("Error updating plot: " ++ exc_str e));
      done (MsgCritical "Error" ("Error updating plot: " ++ exc_str e)) ].
Proof.
  intros Hp Hq s'.
  assert (Htry : update_plot_try E s
                 = (Raise e,
                    emit (failed (SaQueryAsciiValues "TRACE:DATA? TRACE1") e) s)).
  { unfold update_plot_try, bind at 1, query_ascii_values, ask.
    now rewrite Hq. }
  assert (Hs' : s' = reported e
                  (emit (failed (SaQueryAsciiValues "TRACE:DATA? TRACE1") e) s)).
  { unfold s', after. now rewrite (update_plot_raised E s _ _ Hp Htry). }
  rewrite Hs'. clear s' Hs'.
  assert (Hlog : happened s
                   (reported e
                      (emit (failed (SaQueryAsciiValues "TRACE:DATA? TRACE1") e) s))
                 = [ failed (SaQueryAsciiValues "TRACE:DATA? TRACE1") e;
                     done (StdoutPrint ("Error updating plot: " ++ exc_str e));
                     done (MsgCritical "Error"
                             ("Error updating plot: " ++ exc_str e)) ]).
  { apply happened_app. cbn [reported log emit]. now rewrite <- !app_assoc. }
  rewrite Hlog. repeat split.
Qed.

Lemma C5_witness :
  pause Bench.started = false /\
  sa_query_ascii_values (Bench.deaf Bench.example) "TRACE:DATA? TRACE1"
  = Raise Bench.timeout /\
  rfi (after update_plot (Bench.deaf Bench.example) Bench.started)
  = rfi Bench.started.
Proof.
  assert (H1 : pause Bench.started = false) by reflexivity.
  assert (H2 : sa_query_ascii_values (Bench.deaf Bench.example)
                 "TRACE:DATA? TRACE1" = Raise Bench.timeout) by reflexivity.
  repeat (split; [assumption |]).
  exact (proj1 (C5_trace_failure_leaves_log_unchanged _ _ _ H1 H2)).
Defined.

(** C8. [pause_updates] sets the flag, and while the flag is set ticks
    are no-ops: any number of timer ticks leaves the whole state as it was
    (no query or other call is made, nothing is appended to the log file,
    the axes are untouched), and each such tick returns normally. *)
Theorem C8_paused_ticks_do_nothing :
  (forall E s, pause (after pause_updates E s) = true) /\
  (forall s (ticks : list env),
      pause s = true ->
      let s' := deliver (map (fun E => (TimerTimeout, E)) ticks) s in
      s' = s /\ happened s s' = [] /\ appended s s' = "" /\
      forall E, update_plot E s = (Ok tt, s)).
Proof.
  split; [reflexivity |].
  intros s ticks Hp s'.
  assert (Hstep : forall E, update_plot E s = (Ok tt, s))
    by (intros E; now apply update_plot_paused).
  assert (Hs' : s' = s).
  { unfold s'. induction ticks as [|E ticks IH]; [reflexivity |].
    cbn [map deliver slot]. unfold after at 1. rewrite Hstep. exact IH. }
  rewrite Hs'. repeat split.
  - apply happened_app. now rewrite app_nil_r.
  - apply appended_app. now rewrite append_nil_r.
  - exact Hstep.
Qed.

Lemma C8_witness :
  let s := after pause_updates (Bench.bench Bench.example) Bench.started in
  pause s = true /\
  deliver
    (map (fun E => (TimerTimeout, E))
       [Bench.bench Bench.example; Bench.deaf Bench.example]) s
  = s.
Proof.
  intros s.
  assert (H1 : pause s = true) by reflexivity.
  split; [exact H1 |].
  exact (proj1 (proj2 C8_paused_ticks_do_nothing s
                  [Bench.bench Bench.example; Bench.deaf Bench.example] H1)).
Defined.

(** C9. [pause_updates] is idempotent: a second call leaves the state of
    the first, with the flag set, and neither call touches the log file,
    the axes or the history of calls. *)
Theorem C9_pause_idempotent E1 E2 s :
  let once := after pause_updates E1 s in
  let twice := after pause_updates E2 once in
  twice = once /\ pause once = true /\
  rfi once = rfi s /\ ax once = ax s /\ log once = log s /\
  happened once twice = [].
Proof.
  intros once twice. repeat split.
  apply happened_app. now rewrite app_nil_r.
Qed.

(** C10. When the queries are answered and the file operations succeed
    but the tick still fails, it is a plot call that raised, and the
    record written in that tick stays in the log file: the text appended
    by the tick is exactly one record, and the failure is reported by the
    [except] clause, which leaves the file as the writes left it. *)
Theorem C10_plot_failure_keeps_record E s r e s1 :
  pause s = false -> answers E r -> file_ok E ->
  update_plot_try E s = (Raise e, s1) ->
  let s' := after update_plot E s in
  (exists c, is_plot_call (failed c e) = true /\ mpl E c = Some e /\
             In (failed c e) (log s1)) /\
  s' = reported e s1 /\
  contents s' = contents s ++ appended s s' /\
  appended s s' = header_text (now E) r ++ trace_text r /\
  split_on LF (appended s s') = [header_line (now E) r; trace_line r; ""; ""] /\
  contents s' = contents s1.
Proof.
  intros Hp Hans [Hw Hclose] Htry s'.
  assert (Hs' : s' = reported e s1).
  { unfold s', after. now rewrite (update_plot_raised E s _ _ Hp Htry). }
  pose proof (tick_logged E s r Hp Hans (conj Hw Hclose)) as Hc. fold s' in Hc.
  rewrite (appended_app _ _ _ Hc).
  split.
  { rewrite (update_plot_try_answers E s r Hans) in Htry.
    unfold bind at 1 in Htry.
    destruct (log_sample_writable E (queried s) (now E) r Hw)
      as (s2 & Hrun & _).
    rewrite Hrun, Hclose in Htry.
    exact (AbortFacts.render_raises _ _ _ _ _ Htry). }
  repeat split; try assumption.
  - apply record_lines.
  - rewrite Hs'. reflexivity.
Qed.

Lemma C10_witness :
  pause Bench.started = false /\
  answers (Bench.blind Bench.example) Bench.example /\
  file_ok (Bench.blind Bench.example) /\
  update_plot_try (Bench.blind Bench.example) Bench.started
  = (Raise Bench.no_display,
     snd (update_plot_try (Bench.blind Bench.example) Bench.started)) /\
  appended Bench.started
    (after update_plot (Bench.blind Bench.example) Bench.started)
  = header_text Bench.morning Bench.example ++ trace_text Bench.example.
Proof.
  assert (H1 : pause Bench.started = false) by reflexivity.
  assert (H2 : answers (Bench.blind Bench.example) Bench.example)
    by (repeat split).
  assert (H3 : file_ok (Bench.blind Bench.example)) by (repeat split).
  assert (H4 : update_plot_try (Bench.blind Bench.example) Bench.started
               = (Raise Bench.no_display,
                  snd (update_plot_try (Bench.blind Bench.example)
                         Bench.started))) by (vm_compute; reflexivity).
  repeat (split; [assumption |]).
  exact (proj1 (proj2 (proj2 (proj2
    (C10_plot_failure_keeps_record _ _ _ _ _ H1 H2 H3 H4))))).
Defined.

(** C7. [resume_updates] clears the flag and runs one tick on the spot:
    the state after a click on Resume, with no timer signal delivered, is
    the state after a tick of the running loop, and the flag is clear
    whatever the tick did. With cooperating collaborators that tick
    performs the ten queries, appends one record and updates the plot. *)
Theorem C7_resume_runs_one_tick E s :
  let s' := deliver [(ResumeClicked, E)] s in
  resume_updates E s = update_plot E (set_pause false s) /\
  s' = after update_plot E (set_pause false s) /\
  pause s' = false /\
  forall r, answers E r -> file_ok E -> plot_ok E ->
    resume_updates E s = (Ok tt, s') /\
    contents s' = contents s ++ appended s s' /\
    appended s s' = header_text (now E) r ++ trace_text r /\
    happened s s'
    = map done (query_calls ++ file_calls (now E) r ++ plot_calls (ax s) r).
Proof.
  intros s'.
  assert (Hrun : resume_updates E s = update_plot E (set_pause false s))
    by reflexivity.
  assert (Hs' : s' = after update_plot E (set_pause false s)) by reflexivity.
  repeat (split; [assumption |]). split.
  - rewrite Hs'. unfold after.
    now rewrite (AbortFacts.update_plot_keeps_pause E (set_pause false s)).
  - intros r Hans Hfile Hplot.
    destruct (tick_complete E (set_pause false s) r eq_refl Hans Hfile Hplot)
      as (s1 & Hok & _ & _ & Hc & Hlog).
    assert (Hs1 : s' = s1) by (rewrite Hs'; unfold after; now rewrite Hok).
    rewrite Hs1, Hrun.
    change (contents (set_pause false s)) with (contents s) in Hc.
    change (log (set_pause false s)) with (log s) in Hlog.
    change (ax (set_pause false s)) with (ax s) in Hlog.
    rewrite (appended_app _ _ _ Hc), (happened_app _ _ _ Hlog).
    now repeat split.
Qed.

Lemma C7_witness :
  answers (Bench.bench Bench.example) Bench.example /\
  file_ok (Bench.bench Bench.example) /\
  plot_ok (Bench.bench Bench.example) /\
  appended (set_pause true Bench.started)
    (deliver [(ResumeClicked, Bench.bench Bench.example)]
       (set_pause true Bench.started))
  = header_text Bench.morning Bench.example ++ trace_text Bench.example.
Proof.
  repeat (split; [first [apply bench_answers | apply bench_file_ok
                        | apply bench_plot_ok] |]).
  exact (proj1 (proj2 (proj2
    (proj2 (proj2 (proj2
       (C7_resume_runs_one_tick (Bench.bench Bench.example)
          (set_pause true Bench.started))))
       Bench.example (bench_answers _) (bench_file_ok _) (bench_plot_ok _))))).
Defined.

(** C4. When any step of a tick raises, the tick still returns normally:
    the [except] clause prints the error and shows it in a message box,
    and the flag is as before. The events of the tick up to the report are
    calls that succeeded, the call that raised and at most the closing of
    the log file, so nothing after the failure is run and nothing is
    retried. A later tick with cooperating collaborators runs in full from
    the state the failed one left. *)
Theorem C4_failed_tick_is_reported E s e s1 :
  pause s = false -> update_plot_try E s = (Raise e, s1) ->
  let s' := after update_plot E s in
  update_plot E s = (Ok tt, s') /\
  pause s' = pause s /\
  aborted (happened s s1) = true /\
  happened s s'
  = (happened s s1
     ++ [ done (StdoutPrint ("Error updating plot: " ++ exc_str e));
          done (MsgCritical "Error" ("Error updating plot: " ++ exc_str e)) ])%list /\
  forall E2 r, answers E2 r -> file_ok E2 -> plot_ok E2 ->
    let s'' := after update_plot E2 s' in
    update_plot E2 s' = (Ok tt, s'') /\
    appended s' s'' = header_text (now E2) r ++ trace_text r /\
    happened s' s''
    = map done (query_calls ++ file_calls (now E2) r ++ plot_calls (ax s') r).
Proof.
  intros Hp Htry s'.
  pose proof (update_plot_raised E s e s1 Hp Htry) as Hrun.
  assert (Hs' : s' = reported e s1) by (unfold s', after; now rewrite Hrun).
  destruct (AbortFacts.update_plot_try_aborts E s e s1 Htry) as (evs & Hlog & Hab).
  assert (Hp' : pause s' = pause s).
  { unfold s', after. apply AbortFacts.update_plot_keeps_pause. }
  rewrite (happened_app _ _ _ Hlog).
  split; [now rewrite Hs' |].
  split; [exact Hp' |].
  split; [exact Hab |].
  split.
  { apply happened_app. rewrite Hs'. cbn [reported log emit].
    now rewrite Hlog, <- !app_assoc. }
  intros E2 r Hans Hfile Hplot s''.
  assert (Hrunning : pause s' = false) by congruence.
  destruct (tick_complete E2 s' r Hrunning Hans Hfile Hplot)
    as (s2 & Hok & _ & _ & Hc & Hlog2).
  assert (Hs2 : s'' = s2) by (unfold s'', after; now rewrite Hok).
  rewrite Hs2, (appended_app _ _ _ Hc), (happened_app _ _ _ Hlog2).
  now repeat split.
Qed.

Lemma C4_witness :
  pause Bench.started = false /\
  update_plot_try (Bench.deaf Bench.example) Bench.started
  = (Raise Bench.timeout,
     snd (update_plot_try (Bench.deaf Bench.example) Bench.started)) /\
  update_plot (Bench.deaf Bench.example) Bench.started
  = (Ok tt, after update_plot (Bench.deaf Bench.example) Bench.started).
Proof.
  assert (H1 : pause Bench.started = false) by reflexivity.
  assert (H2 : update_plot_try (Bench.deaf Bench.example) Bench.started
               = (Raise Bench.timeout,
                  snd (update_plot_try (Bench.deaf Bench.example)
                         Bench.started))) by (vm_compute; reflexivity).
  repeat (split; [assumption |]).
  exact (proj1 (C4_failed_tick_is_reported _ _ _ _ H1 H2)).
Defined.

(** The commands [reset_parameters] builds from its default values are the
    eight literal commands of [config_writes]. *)
Lemma reset_commands :
  [ ":SENSE:FREQ:CENTER " ++ repr default_center_freq;
    ":SENSE:FREQ:SPAN " ++ repr default_span;
    ":SENSE:BAND:RES " ++ repr default_rbw;
    ":SENSE:BAND:VID " ++ repr default_vbw;
    ":DISP:WIND:TRAC:Y:RLEV " ++ repr default_ref_level;
    ":DISP:WIND:TRAC:Y:SCAL " ++ repr default_amp_div;
    ":INP:ATT " ++ repr default_att;
    ":AVER:COUN " ++ repr default_avg_num ]
  = config_writes.
Proof. vm_compute. reflexivity. Qed.

Lemma reset_parameters_try_commands :
  reset_parameters_try
  = (write "*RST" ;;
     write ":SENSE:FREQ:CENTER 100000000.0" ;;
     write ":SENSE:FREQ:SPAN 1000000000.0" ;;
     write ":SENSE:BAND:RES 100000.0" ;;
     write ":SENSE:BAND:VID 100000.0" ;;
     write ":DISP:WIND:TRAC:Y:RLEV -10.0" ;;
     write ":DISP:WIND:TRAC:Y:SCAL 10.0" ;;
     write ":INP:ATT 0.0" ;;
     write ":AVER:COUN 1.0" ;;
     ui (MsgInformation "Success" "Parameters reset to default values."))%py.
Proof.
  assert (H1 : ":SENSE:FREQ:CENTER " ++ repr default_center_freq
               = ":SENSE:FREQ:CENTER 100000000.0") by (vm_compute; reflexivity).
  assert (H2 : ":SENSE:FREQ:SPAN " ++ repr default_span
               = ":SENSE:FREQ:SPAN 1000000000.0") by (vm_compute; reflexivity).
  assert (H3 : ":SENSE:BAND:RES " ++ repr default_rbw
               = ":SENSE:BAND:RES 100000.0") by (vm_compute; reflexivity).
  assert (H4 : ":SENSE:BAND:VID " ++ repr default_vbw
               = ":SENSE:BAND:VID 100000.0") by (vm_compute; reflexivity).
  assert (H5 : ":DISP:WIND:TRAC:Y:RLEV " ++ repr default_ref_level
               = ":DISP:WIND:TRAC:Y:RLEV -10.0") by (vm_compute; reflexivity).
  assert (H6 : ":DISP:WIND:TRAC:Y:SCAL " ++ repr default_amp_div
               = ":DISP:WIND:TRAC:Y:SCAL 10.0") by (vm_compute; reflexivity).
  assert (H7 : ":INP:ATT " ++ repr default_att = ":INP:ATT 0.0")
    by (vm_compute; reflexivity).
  assert (H8 : ":AVER:COUN " ++ repr default_avg_num = ":AVER:COUN 1.0")
    by (vm_compute; reflexivity).
  unfold reset_parameters_try.
  rewrite H1, H2, H3, H4, H5, H6, H7, H8. reflexivity.
Qed.

(** C3. [reset_parameters] always starts with the reset command. When the
    instrument takes every command, the reset is followed by exactly the
    eight configuration writes, in the order center frequency, span,
    resolution bandwidth, video bandwidth, reference level, amplitude per
    division, attenuation, average count, and then by the success message.
    When the reset is taken and the configuration write at position [k]
    (counted from 0) is the first to raise, the writes before it have been
    sent, those after it are never sent, and the error is shown. *)
Theorem C3_reset_sequence :
  (forall E s, exists outcome rest,
      happened s (after reset_parameters E s)
      = {| ev_call := SaWrite "*RST"; ev_raised := outcome |} :: rest) /\
  (forall E s,
      (forall cmd, In cmd ("*RST" :: config_writes) -> sa_write E cmd = None) ->
      happened s (after reset_parameters E s)
      = map done
          (map SaWrite ("*RST" :: config_writes)
           ++ [MsgInformation "Success" "Parameters reset to default values."])) /\
  (forall E s k cmd e,
      sa_write E "*RST" = None ->
      nth_error config_writes k = Some cmd ->
      (forall c, In c (firstn k config_writes) -> sa_write E c = None) ->
      sa_write E cmd = Some e ->
      happened s (after reset_parameters E s)
      = (map done (map SaWrite ("*RST" :: firstn k config_writes))
         ++ [ failed (SaWrite cmd) e;
              done (MsgCritical "Error"
                      ("Failed to reset parameters: " ++ exc_str e)) ])%list).
Proof.
  split; [| split].
  - intros E s. unfold after, reset_parameters, try_except.
    rewrite reset_parameters_try_commands.
    destruct (sa_write E "*RST") as [e|] eqn:Hrst.
    + rewrite (run_write_raise _ _ _ _ _ Hrst).
      eexists _, _. apply happened_app.
      cbn [reset_parameters_except ui snd log emit]. rewrite <- ?app_assoc.
      reflexivity.
    + rewrite (run_write _ _ _ _ Hrst).
      assert (Hext : forall m : M unit,
                 (forall E0 s0, exists evs, log (snd (m E0 s0)) = (log s0 ++ evs)%list) ->
                 exists rest,
                   log (snd (match m E (emit (done (SaWrite "*RST")) s) with
                             | (Ok a, s') => (Ok a, s')
                             | (Raise e, s') => reset_parameters_except e E s'
                             end))
                   = (log s ++ done (SaWrite "*RST") :: rest)%list).
      { intros m Hm. specialize (Hm E (emit (done (SaWrite "*RST")) s)).
        destruct Hm as [evs Hm].
        destruct (m E _) as [[a|e] s2]; simpl in *.
        - exists evs. now rewrite Hm, <- app_assoc.
        - eexists. rewrite Hm, <- !app_assoc. reflexivity. }
      destruct (Hext ((fun _ : unit =>
         write ":SENSE:FREQ:CENTER 100000000.0" ;;
         write ":SENSE:FREQ:SPAN 1000000000.0" ;;
         write ":SENSE:BAND:RES 100000.0" ;;
         write ":SENSE:BAND:VID 100000.0" ;;
         write ":DISP:WIND:TRAC:Y:RLEV -10.0" ;;
         write ":DISP:WIND:TRAC:Y:SCAL 10.0" ;;
         write ":INP:ATT 0.0" ;;
         write ":AVER:COUN 1.0" ;;
         ui (MsgInformation "Success" "Parameters reset to default values."))%py tt))
        as [rest Hrest].
      { intros E0 s0.
        cbv [bind write tell ui].
        repeat match goal with
               | |- context [match sa_write ?E1 ?c with _ => _ end] =>
                   destruct (sa_write E1 c)
               end;
          eexists; cbn [snd log emit]; rewrite <- ?app_assoc; reflexivity. }
      exists None, rest. apply happened_app. exact Hrest.
  - intros E s Hall. unfold after, reset_parameters, try_except.
    rewrite reset_parameters_try_commands.
    rewrite !run_write by (apply Hall; cbn; tauto).
    apply happened_app. cbn [ui snd log emit]. rewrite <- ?app_assoc.
    reflexivity.
  - intros E s k cmd e Hrst Hnth Hprev Hfail.
    unfold after, reset_parameters, try_except.
    rewrite reset_parameters_try_commands.
    rewrite (run_write _ _ _ _ Hrst).
    do 8 (destruct k as [|k];
          [ cbn in Hnth; injection Hnth as <-;
            rewrite ?run_write by (apply Hprev; cbn; tauto);
            rewrite (run_write_raise _ _ _ _ _ Hfail);
            apply happened_app;
            cbn [reset_parameters_except ui snd log emit];
            rewrite <- ?app_assoc; reflexivity |]).
    destruct k; discriminate Hnth.
Qed.

Lemma C3_witness :
  sa_write (Bench.rejecting ":SENSE:BAND:VID 100000.0" Bench.example) "*RST"
  = None /\
  nth_error config_writes 3 = Some ":SENSE:BAND:VID 100000.0" /\
  (forall c, In c (firstn 3 config_writes) ->
     sa_write (Bench.rejecting ":SENSE:BAND:VID 100000.0" Bench.example) c
     = None) /\
  sa_write (Bench.rejecting ":SENSE:BAND:VID 100000.0" Bench.example)
    ":SENSE:BAND:VID 100000.0" = Some Bench.timeout /\
  happened Bench.started
    (after reset_parameters
       (Bench.rejecting ":SENSE:BAND:VID 100000.0" Bench.example)
       Bench.started)
  = [ done (SaWrite "*RST");
      done (SaWrite ":SENSE:FREQ:CENTER 100000000.0");
      done (SaWrite ":SENSE:FREQ:SPAN 1000000000.0");
      done (SaWrite ":SENSE:BAND:RES 100000.0");
      failed (SaWrite ":SENSE:BAND:VID 100000.0") Bench.timeout;
      done (MsgCritical "Error" "Failed to reset parameters: VI_ERROR_TMO") ].
Proof.
  assert (H3 : forall c, In c (firstn 3 config_writes) ->
     sa_write (Bench.rejecting ":SENSE:BAND:VID 100000.0" Bench.example) c
     = None).
  { intros c [<-|[<-|[<-|[]]]]; reflexivity. }
  repeat (split; [first [reflexivity | exact H3] |]).
  exact (proj2 (proj2 C3_reset_sequence)
           (Bench.rejecting ":SENSE:BAND:VID 100000.0" Bench.example)
           Bench.started 3%nat _ _ eq_refl eq_refl H3 eq_refl).
Defined.

(** C6, as the code has it. Once a tick has its queries answered and the
    file operations succeed, the text it appends is three lines: a header
    line whose comma-separated fields are the timestamp, the nine scalar
    settings and the marker [*]; a trace line made of the amplitudes
    joined by commas and closed by [,@], so that its comma-separated
    fields are the amplitudes and the marker [@]; and a blank line. Each
    amplitude is written rounded to two decimal places when it is a
    finite number, and as [nan], [inf] or [-inf] otherwise. *)
Theorem C6_record_layout E s r :
  pause s = false -> answers E r -> file_ok E ->
  let s' := after update_plot E s in
  contents s' = contents s ++ appended s s' /\
  split_on LF (appended s s') = [header_line (now E) r; trace_line r; ""; ""] /\
  split_on "," (header_line (now E) r)
  = [ Clock.strftime (now E);
      format_f 6 (div (center_hz r) lit_1e6);
      format_f 9 (div (span_hz r) lit_1e9);
      format_f 3 (div (rbw_hz r) lit_1e3);
      format_f 3 (div (vbw_hz r) lit_1e3);
      repr (ref_level r);
      repr (mul (sweep_time_sec r) lit_1000_0);
      repr (amp_div r);
      repr (att r);
      repr (avg_num r);
      "*" ] /\
  trace_line r = join "," (trace_fields r) ++ ",@" /\
  split_on "," (trace_line r) = (trace_tokens r ++ ["@"])%list /\
  trace_fields r = map (format_f 2) (trace_data r) /\
  Forall2 (shows 2) (trace_data r) (trace_fields r).
Proof.
  intros Hp Hans Hfile s'.
  pose proof (tick_logged E s r Hp Hans Hfile) as Hc. fold s' in Hc.
  rewrite (appended_app _ _ _ Hc).
  split; [exact Hc |].
  split; [apply record_lines |].
  split; [apply header_line_split |].
  split; [reflexivity |].
  split; [apply trace_line_split |].
  split; [reflexivity | apply trace_fields_show].
Qed.

Lemma C6_witness :
  pause Bench.started = false /\
  answers (Bench.bench Bench.example) Bench.example /\
  file_ok (Bench.bench Bench.example) /\
  split_on ","
    (header_line (now (Bench.bench Bench.example)) Bench.example)
  = ["2024-07-12 10:00:00"; "100.000000"; "1.000000000"; "100.000";
     "100.000"; "-10.0"; "10.0"; "10.0"; "0.0"; "1.0"; "*"] /\
  split_on "," (trace_line Bench.example) = ["-50.12"; "-60.46"; "@"].
Proof.
  assert (H1 : pause Bench.started = false) by reflexivity.
  pose proof (C6_record_layout _ Bench.started _ H1
                (bench_answers Bench.example) (bench_file_ok Bench.example))
    as (_ & _ & Hheader & _ & Htrace & _).
  split; [exact H1 |].
  split; [apply bench_answers |].
  split; [apply bench_file_ok |].
  split.
  - rewrite Hheader. vm_compute. reflexivity.
  - rewrite Htrace. vm_compute. reflexivity.
Defined.

(** A trace holding a NaN and infinite amplitudes is logged with the
    fields [nan], [inf] and [-inf], which have no decimal places: the
    record of such a tick does not have the layout C6 gives. *)
Lemma C6_counterexample :
  let r := Bench.with_trace [S754_nan; S754_infinity false; S754_infinity true]
             Bench.example in
  let s' := after update_plot (Bench.bench r) Bench.started in
  pause Bench.started = false /\ answers (Bench.bench r) r /\
  file_ok (Bench.bench r) /\
  split_on LF (appended Bench.started s')
  = [ "2024-07-12 10:00:00,100.000000,1.000000000,100.000,100.000,-10.0,10.0,10.0,0.0,1.0,*";
      "nan,inf,-inf,@"; ""; "" ] /\
  split_on "," "nan,inf,-inf,@" = ["nan"; "inf"; "-inf"; "@"] /\
  map (has_decimals 2) ["nan"; "inf"; "-inf"] = [false; false; false] /\
  forallb (has_decimals 2) (trace_fields r) = false.
Proof.
  intros r s'.
  split; [reflexivity |]. split; [apply bench_answers |].
  split; [apply bench_file_ok |].
  vm_compute. repeat split.
Qed.

(** C2, as the code has it. In the record of a tick, the second to fifth
    header fields are the center frequency divided by 1e6, the span
    divided by 1e9 and the two bandwidths divided by 1e3, formatted with
    [.6f], [.9f], [.3f] and [.3f], and the trace fields are the amplitudes
    formatted with [.2f]. Field by field, a finite number is written
    rounded to exactly that many decimal places, and a NaN or an infinite
    one as [nan], [inf] or [-inf]. A raw center frequency of
    750,000,000 Hz is written [750.000000] and a raw span of
    200,000,000 Hz is written [0.200000000]. *)
Theorem C2_numeric_formats E s r :
  pause s = false -> answers E r -> file_ok E ->
  let s' := after update_plot E s in
  let header := split_on "," (nth 0 (split_on LF (appended s s')) "") in
  let trace := split_on "," (nth 1 (split_on LF (appended s s')) "") in
  nth 1 header "" = format_f 6 (div (center_hz r) lit_1e6) /\
  nth 2 header "" = format_f 9 (div (span_hz r) lit_1e9) /\
  nth 3 header "" = format_f 3 (div (rbw_hz r) lit_1e3) /\
  nth 4 header "" = format_f 3 (div (vbw_hz r) lit_1e3) /\
  shows 6 (div (center_hz r) lit_1e6) (nth 1 header "") /\
  shows 9 (div (span_hz r) lit_1e9) (nth 2 header "") /\
  shows 3 (div (rbw_hz r) lit_1e3) (nth 3 header "") /\
  shows 3 (div (vbw_hz r) lit_1e3) (nth 4 header "") /\
  trace = (trace_tokens r ++ ["@"])%list /\
  trace_fields r = map (format_f 2) (trace_data r) /\
  Forall2 (shows 2) (trace_data r) (trace_fields r) /\
  (center_hz r = of_Z 750000000 -> nth 1 header "" = "750.000000") /\
  (span_hz r = of_Z 200000000 -> nth 2 header "" = "0.200000000").
Proof.
  intros Hp Hans Hfile s' header trace.
  pose proof (tick_logged E s r Hp Hans Hfile) as Hc. fold s' in Hc.
  assert (Hh : header = (header_fields (now E) r ++ ["*"])%list).
  { unfold header. rewrite (appended_app _ _ _ Hc), record_lines.
    apply header_line_split. }
  assert (Ht : trace = (trace_tokens r ++ ["@"])%list).
  { unfold trace. rewrite (appended_app _ _ _ Hc), record_lines.
    apply trace_line_split. }
  rewrite Hh, Ht. cbn [header_fields app nth].
  do 4 (split; [reflexivity |]).
  do 4 (split; [apply format_f_shows; lia |]).
  do 2 (split; [reflexivity |]).
  split; [apply trace_fields_show |].
  split; intros ->; vm_compute; reflexivity.
Qed.

Lemma C2_witness :
  pause Bench.started = false /\
  answers (Bench.bench Bench.example) Bench.example /\
  file_ok (Bench.bench Bench.example) /\
  firstn 5
    (split_on ","
       (nth 0
          (split_on LF
             (appended Bench.started
                (after update_plot (Bench.bench Bench.example)
                   Bench.started))) ""))
  = ["2024-07-12 10:00:00"; "100.000000"; "1.000000000"; "100.000"; "100.000"] /\
  split_on ","
    (nth 1
       (split_on LF
          (appended Bench.started
             (after update_plot (Bench.bench Bench.example)
                Bench.started))) "")
  = ["-50.12"; "-60.46"; "@"].
Proof.
  assert (H1 : pause Bench.started = false) by reflexivity.
  pose proof (C2_numeric_formats _ Bench.started _ H1
                (bench_answers Bench.example) (bench_file_ok Bench.example))
    as (_ & _ & _ & _ & _ & _ & _ & _ & Htrace & _).
  split; [exact H1 |].
  split; [apply bench_answers |].
  split; [apply bench_file_ok |].
  split.
  - vm_compute. reflexivity.
  - rewrite Htrace. vm_compute. reflexivity.
Defined.

(** An instrument that answers [nan] for the center frequency, [inf] for
    the span and a trace holding a NaN and a negative infinity has them
    logged as [nan], [inf] and [-inf], which have no decimal places: the
    record of such a tick does not have the formats C2 gives. *)
Lemma C2_counterexample :
  let r := {| trace_data := [Bench.ratio (-50123) 1000; S754_nan;
                             S754_infinity true];
              center_hz := S754_nan;
              span_hz := S754_infinity false;
              rbw_hz := of_Z 100000;
              vbw_hz := of_Z 100000;
              ref_level := of_Z (-10);
              sweep_time_sec := Bench.ratio 1 100;
              amp_div := of_Z 10;
              att := of_Z 0;
              avg_num := of_Z 1 |} in
  let s' := after update_plot (Bench.bench r) Bench.started in
  let header :=
    split_on "," (nth 0 (split_on LF (appended Bench.started s')) "") in
  let trace :=
    split_on "," (nth 1 (split_on LF (appended Bench.started s')) "") in
  pause Bench.started = false /\ answers (Bench.bench r) r /\
  file_ok (Bench.bench r) /\
  firstn 5 header = ["2024-07-12 10:00:00"; "nan"; "inf"; "100.000"; "100.000"] /\
  has_decimals 6 (nth 1 header "") = false /\
  has_decimals 9 (nth 2 header "") = false /\
  trace = ["-50.12"; "nan"; "-inf"; "@"] /\
  forallb (has_decimals 2) (trace_fields r) = false.
Proof.
  intros r s' header trace.
  split; [reflexivity |]. split; [apply bench_answers |].
  split; [apply bench_file_ok |].
  vm_compute. repeat split.
Qed.

(* ===================================================================== *)
(** * Further properties of the loop *)
(* ===================================================================== *)

Module LoopExtras.

Import Str StrFacts TextFacts PyFloat Sys App Obs RecordFacts TickFacts LoopFacts.
Import Watch.
Local Open Scope py_scope.

(** ** The log file only grows *)

Lemma grows_keeps {A} (m : M A) : keeps rfi m -> grows m.
Proof.
  intros Hk E s. specialize (Hk E s). split.
  - exists "". now rewrite (contents_rfi _ _ Hk), append_nil_r.
  - now rewrite Hk.
Qed.

Lemma grows_bind {A B} (m : M A) (k : A -> M B) :
  grows m -> (forall a, grows (k a)) -> grows (bind m k).
Proof.
  intros Hm Hk E s. unfold bind. specialize (Hm E s).
  destruct (m E s) as [[a|e] s1]; simpl in *; [| exact Hm].
  destruct Hm as [[t1 H1] Hn1]. destruct (Hk a E s1) as [[t2 H2] Hn2].
  split.
  - exists (t1 ++ t2). now rewrite H2, H1, append_assoc.
  - auto.
Qed.

Lemma grows_try_except {A} (m : M A) h :
  grows m -> (forall e, grows (h e)) -> grows (try_except m h).
Proof.
  intros Hm Hh E s. unfold try_except. specialize (Hm E s).
  destruct (m E s) as [[a|e] s1]; simpl in *; [exact Hm |].
  destruct Hm as [[t1 H1] Hn1]. destruct (Hh e E s1) as [[t2 H2] Hn2].
  split.
  - exists (t1 ++ t2). now rewrite H2, H1, append_assoc.
  - auto.
Qed.

Lemma grows_file_write file data : grows (file_write file data).
Proof.
  intros E s. unfold file_write.
  destruct (os_write E data); simpl.
  - split; [now eexists | discriminate].
  - split; [exists ""; now rewrite append_nil_r | auto].
Qed.

Lemma grows_with_open_append path body :
  (forall file, grows (body file)) -> grows (with_open_append path body).
Proof.
  intros Hb E s. unfold with_open_append.
  destruct (os_open E path "a"); simpl.
  - split; [exists ""; now rewrite append_nil_r | auto].
  - destruct (Hb "" E (emit (done (FileOpen path "a"))
                         (set_rfi (Some (contents s)) s))) as [[t Ht] Hn].
    destruct (body "" E _) as [[file|e] s2]; simpl in Ht, Hn;
      assert (Hrfi : rfi s2 <> None) by (apply Hn; discriminate);
      destruct (os_close E); simpl;
      (split; [| first [discriminate | auto]]);
      first [ now exists t
            | eexists; cbn [contents rfi emit set_rfi];
              rewrite Ht, append_assoc; reflexivity ].
Qed.

Lemma update_plot_try_grows : grows update_plot_try.
Proof.
  unfold update_plot_try, query_ascii_values, query_float, plot_call.
  repeat first
    [ apply grows_bind; [| intros ?]
    | apply grows_with_open_append; intros ?
    | apply grows_file_write
    | apply grows_keeps;
      first [ apply keeps_ask; reflexivity
            | apply keeps_tell; reflexivity
            | apply keeps_ret
            | easy ]
    | match goal with |- grows (match ?a with _ => _ end) => destruct a end ].
Qed.

Lemma reset_parameters_keeps_rfi : keeps rfi reset_parameters.
Proof.
  unfold reset_parameters, reset_parameters_try, reset_parameters_except, write.
  apply keeps_try_except; [| intros e; now apply keeps_ui].
  repeat first
    [ apply keeps_bind; [| intros ?]
    | apply keeps_tell; reflexivity
    | now apply keeps_ui ].
Qed.

Lemma slot_grows sg : grows (slot sg).
Proof.
  destruct sg; cbn [slot].
  - unfold update_plot. apply grows_bind; [now apply grows_keeps |].
    intros paused. destruct (negb paused).
    + apply grows_try_except; [apply update_plot_try_grows |].
      intros e. apply grows_keeps, update_plot_except_keeps_rfi.
    + now apply grows_keeps.
  - now apply grows_keeps.
  - unfold resume_updates. apply grows_bind; [now apply grows_keeps |].
    intros _. unfold update_plot.
    apply grows_bind; [now apply grows_keeps |].
    intros paused. destruct (negb paused).
    + apply grows_try_except; [apply update_plot_try_grows |].
      intros e. apply grows_keeps, update_plot_except_keeps_rfi.
    + now apply grows_keeps.
  - apply grows_keeps, reset_parameters_keeps_rfi.
Qed.

(** X1. Whatever the timer, the buttons and the collaborators do, the log
    file is only ever appended to: after any run of signals the text of
    the file is the earlier text followed by what the run added, and a
    file that existed still exists. *)
Theorem X1_log_file_is_append_only (sgs : list (signal * env)) (s : state) :
  (exists text, contents (deliver sgs s) = contents s ++ text) /\
  (rfi s <> None -> rfi (deliver sgs s) <> None).
Proof.
  revert s. induction sgs as [|[sg E] sgs IH]; intros s; cbn [deliver].
  - split; [exists ""; now rewrite append_nil_r | auto].
  - destruct (slot_grows sg E s) as [[t1 H1] Hn1].
    destruct (IH (after (slot sg) E s)) as [[t2 H2] Hn2].
    unfold after in *. split.
    + exists (t1 ++ t2). now rewrite H2, H1, append_assoc.
    + auto.
Qed.

Lemma X1_witness :
  rfi Bench.started <> None /\
  rfi (deliver [ (TimerTimeout, Bench.full_disk Bench.example);
                 (ResetParamsClicked, Bench.bench Bench.example) ]
         Bench.started) <> None.
Proof.
  assert (H : rfi Bench.started <> None) by discriminate.
  split; [exact H |].
  exact (proj2 (X1_log_file_is_append_only
                  [ (TimerTimeout, Bench.full_disk Bench.example);
                    (ResetParamsClicked, Bench.bench Bench.example) ]
                  Bench.started) H).
Defined.

(** ** Pausing and resuming *)

Lemma paused_ticks_noop Es s :
  pause s = true -> deliver (timer_ticks Es) s = s.
Proof.
  intros Hp. induction Es as [|E Es IH]; [reflexivity |].
  cbn [timer_ticks map deliver slot]. unfold after at 1.
  rewrite (update_plot_paused E s Hp). exact IH.
Qed.

Lemma deliver_app sgs1 sgs2 s :
  deliver (sgs1 ++ sgs2) s = deliver sgs2 (deliver sgs1 s).
Proof.
  revert s. induction sgs1 as [|[sg E] sgs1 IH]; intros s; [reflexivity |].
  cbn [app deliver]. apply IH.
Qed.

(** X6. Ticks missed while paused are not made up for: pausing, any
    number of timer ticks and then resuming leaves the state that a
    single tick of the running loop leaves, with the answers given at the
    moment of resuming. Resuming a loop that is already running is one
    more tick. *)
Theorem X6_pause_ticks_resume E0 Es E s :
  deliver ((PauseClicked, E0) :: timer_ticks Es ++ [(ResumeClicked, E)]) s
  = after update_plot E (set_pause false s) /\
  (pause s = false ->
   deliver [(ResumeClicked, E)] s = deliver [(TimerTimeout, E)] s).
Proof.
  split.
  - cbn [deliver slot]. rewrite deliver_app.
    rewrite paused_ticks_noop by reflexivity.
    reflexivity.
  - intros Hp. cbn [deliver slot]. unfold after, resume_updates, bind, put_pause.
    destruct s as [p a f l]. simpl in Hp. subst p. reflexivity.
Qed.

Lemma X6_witness :
  pause Bench.started = false /\
  deliver [(ResumeClicked, Bench.bench Bench.example)] Bench.started
  = deliver [(TimerTimeout, Bench.bench Bench.example)] Bench.started.
Proof.
  assert (H : pause Bench.started = false) by reflexivity.
  split; [exact H |].
  exact (proj2 (X6_pause_ticks_resume (Bench.bench Bench.example) []
                  (Bench.bench Bench.example) Bench.started) H).
Defined.

(** ** The log of a run of complete ticks *)

Lemma split_on_record t r rest :
  split_on LF (header_text t r ++ trace_text r ++ rest)
  = header_line t r :: trace_line r :: "" :: split_on LF rest.
Proof.
  rewrite header_text_line, trace_text_line, !append_assoc.
  change (nl ++ trace_line r ++ nl ++ nl ++ rest)
    with (String LF (trace_line r ++ String LF (String LF rest))).
  rewrite (split_on_append LF _ _ (header_line_one_line t r)).
  rewrite (split_on_append LF _ _ (trace_line_one_line r)).
  reflexivity.
Qed.

Lemma records_text_lines ticks :
  split_on LF (records_text ticks) = (records_lines ticks ++ [""])%list.
Proof.
  unfold records_text, records_lines.
  induction ticks as [|[E r] ticks IH]; [reflexivity |].
  cbn [map cat flat_map fst snd]. rewrite append_assoc, split_on_record, IH.
  reflexivity.
Qed.

(** X8. A run of complete ticks leaves one record per tick, in order:
    the text added to the log file is the records one after the other,
    and it reads back, line by line, as a header line, a trace line and a
    blank line for each tick. The loop is still running afterwards. *)
Theorem X8_complete_ticks_log_in_order
    (ticks : list (env * readings)) (s : state) :
  pause s = false -> Forall cooperative ticks ->
  let s' := deliver (timer_ticks (map fst ticks)) s in
  contents s' = contents s ++ records_text ticks /\
  split_on LF (records_text ticks) = (records_lines ticks ++ [""])%list /\
  List.length (records_lines ticks) = (3 * List.length ticks)%nat /\
  pause s' = false.
Proof.
  intros Hp Hall s'. split; [| split; [apply records_text_lines | split]].
  - unfold s'. clear s'. revert s Hp.
    induction Hall as [|[E r] ticks (Hans & Hfile & Hplot) Hall IH];
      intros s Hp.
    + cbn. now rewrite append_nil_r.
    + cbn [map fst timer_ticks deliver slot].
      destruct (tick_complete E s r Hp Hans Hfile Hplot)
        as (s1 & Hrun & Hp1 & _ & Hc & _).
      unfold after at 1. rewrite Hrun. cbn [snd].
      fold (timer_ticks (map fst ticks)).
      rewrite (IH s1 Hp1), Hc. unfold records_text. cbn [map cat fst snd].
      now rewrite !append_assoc.
  - unfold records_lines. clear. induction ticks as [|p ticks IH]; [reflexivity |].
    cbn [flat_map app List.length]. rewrite IH. lia.
  - unfold s'. clear s'. revert s Hp.
    induction Hall as [|[E r] ticks (Hans & Hfile & Hplot) Hall IH];
      intros s Hp; [exact Hp |].
    cbn [map fst timer_ticks deliver slot].
    destruct (tick_complete E s r Hp Hans Hfile Hplot)
      as (s1 & Hrun & Hp1 & _).
    unfold after at 1. rewrite Hrun. cbn [snd].
    fold (timer_ticks (map fst ticks)). now apply IH.
Qed.

Lemma X8_witness :
  pause Bench.started = false /\
  Forall cooperative
    [ (Bench.bench Bench.example, Bench.example);
      (Bench.bench (Bench.with_trace [of_Z 1] Bench.example),
       Bench.with_trace [of_Z 1] Bench.example) ] /\
  contents
    (deliver
       (timer_ticks
          [ Bench.bench Bench.example;
            Bench.bench (Bench.with_trace [of_Z 1] Bench.example) ])
       Bench.started)
  = contents Bench.started
    ++ records_text
         [ (Bench.bench Bench.example, Bench.example);
           (Bench.bench (Bench.with_trace [of_Z 1] Bench.example),
            Bench.with_trace [of_Z 1] Bench.example) ].
Proof.
  assert (H1 : pause Bench.started = false) by reflexivity.
  assert (H2 : Forall cooperative
    [ (Bench.bench Bench.example, Bench.example);
      (Bench.bench (Bench.with_trace [of_Z 1] Bench.example),
       Bench.with_trace [of_Z 1] Bench.example) ]).
  { repeat constructor; intros c; reflexivity. }
  repeat (split; [assumption |]).
  exact (proj1 (X8_complete_ticks_log_in_order _ _ H1 H2)).
Defined.

(** ** A log file that cannot be closed *)



End LoopExtras.

(* ===================================================================== *)
(** * Every way a callback can go *)
(* ===================================================================== *)

Module CaseFacts.

Import Str StrFacts TextFacts PyFloat Sys App Obs RecordFacts TickFacts LoopFacts.
Import Watch.
Local Open Scope py_scope.

(** Case analysis on the next answer, or attribute, a callback reads. *)
Ltac next_case H :=
  match type of H with
  | context [match ?X with _ => _ end] =>
      lazymatch X with
      | sa_query_ascii_values _ _ => idtac
      | sa_query_float _ _ => idtac
      | sa_write _ _ => idtac
      | os_open _ _ _ => idtac
      | os_write _ _ => idtac
      | os_close _ => idtac
      | mpl _ _ => idtac
      | ax _ => idtac
      | pause _ => idtac
      end;
      destruct X eqn:?; cbv beta iota zeta in H
  end.

(** All the runs of a callback [m], each with its final state spelled
    out; the goal is stated on [m E s]. *)
Ltac all_runs m E s :=
  let out := fresh "out" in
  let H := fresh "Hrun" in
  remember (m E s) as out eqn:H;
  cbv [update_plot try_except update_plot_try update_plot_except
       reset_parameters reset_parameters_except
       bind get_pause negb query_ascii_values query_float write ask tell
       datetime_now with_open_append file_write plot_call get_ax put_ax
       ret ui] in H;
  repeat next_case H;
  subst out; cbn [fst snd].

(** The events a spelled-out state adds to those of [s]. *)
Ltac read_events :=
  cbn [log emit set_rfi set_ax];
  first [ solve [symmetry; apply app_nil_r]
        | rewrite <- ?app_assoc; reflexivity ].

Ltac open_events s :=
  match goal with
  | |- context [happened s ?st] =>
      let H := fresh "Hlog" in
      eassert (H : log st = (log s ++ _)%list) by read_events;
      rewrite (happened_app s st _ H); clear H
  end.

(** The text a spelled-out state adds to the file of [s]. *)
Ltac read_text :=
  cbn [contents rfi emit set_rfi set_ax];
  first [ solve [symmetry; apply append_nil_r]
        | rewrite ?append_assoc; reflexivity ].

Ltac open_text s :=
  match goal with
  | |- context [appended s ?st] =>
      let H := fresh "Htext" in
      eassert (H : contents st = contents s ++ _) by read_text;
      rewrite (appended_app s st _ H); clear H
  end.

(** ** What a tick asks the instrument *)

(** The call at position [k] is the one that raised. *)
Ltac raised_at k :=
  exists k; eexists; eexists; eexists;
  split; [reflexivity |]; split; [reflexivity |]; split; reflexivity.

(** X5. Whatever the collaborators do, a tick asks the instrument its
    ten queries in program order and stops asking at the first one that
    raises. A paused tick makes no call. Otherwise either the ten queries
    were all answered, each asked once and in order, or some query
    raised: then the queries before it were answered, it is the last
    instrument call, and nothing follows it but the report of the error,
    prints and message boxes. A tick never sends a command that changes
    the instrument. *)
Theorem X5_tick_queries_in_order (E : env) (s : state) :
  let s' := after update_plot E s in
  let asked := filter is_instrument_call (happened s s') in
  forallb (fun ev => negb (is_sa_write ev)) (happened s s') = true /\
  ((pause s = true /\ happened s s' = []) \/
   (pause s = false /\ asked = map done query_calls) \/
   (pause s = false /\
    exists k c e reports,
      nth_error query_calls k = Some c /\
      asked = (map done (firstn k query_calls) ++ [failed c e])%list /\
      happened s s'
      = (map done (firstn k query_calls) ++ failed c e :: reports)%list /\
      forallb is_report reports = true)).
Proof.
  intros s'. unfold s', after. clear s'.
  all_runs update_plot E s; open_events s; cbv zeta;
    (split; [reflexivity |]);
    first
      [ left; split; reflexivity
      | right; left; split; reflexivity
      | right; right; split; [reflexivity |];
        first [ raised_at 0%nat | raised_at 1%nat | raised_at 2%nat
              | raised_at 3%nat | raised_at 4%nat | raised_at 5%nat
              | raised_at 6%nat | raised_at 7%nat | raised_at 8%nat
              | raised_at 9%nat ] ].
Qed.

(** ** The plot follows the log *)

(** X2. A tick never shows what it did not log: whenever a tick makes any
    call on the plot surface, all ten queries were answered, the log file
    was opened and closed without error, the text appended is exactly the
    record of those answers, and every curve handed to the plot is the
    trace of that record. *)
Theorem X2_plot_only_after_logging (E : env) (s : state) :
  let s' := after update_plot E s in
  existsb is_plot_call (happened s s') = true ->
  exists r,
    answers E r /\
    os_open E rfi_file_path "a" = None /\ os_close E = None /\
    appended s s' = header_text (now E) r ++ trace_text r /\
    forall ys, In ys (plotted (happened s s')) -> ys = trace_data r.
Proof.
  intros s'. unfold s', after. clear s'.
  all_runs update_plot E s; open_events s;
    cbn [existsb is_plot_call ev_call done failed orb app];
    intros Hplot; try discriminate Hplot;
    open_text s;
    match goal with
    | H0 : sa_query_ascii_values E _ = Ok ?tr,
      H1 : sa_query_float E ":SENSE:FREQ:CENTER?" = Ok ?c,
      H2 : sa_query_float E ":SENSE:FREQ:SPAN?" = Ok ?sp,
      H3 : sa_query_float E ":SENSE:BAND:RES?" = Ok ?rb,
      H4 : sa_query_float E ":SENSE:BAND:VID?" = Ok ?vb,
      H5 : sa_query_float E ":DISP:WIND:TRAC:Y:RLEV?" = Ok ?rl,
      H6 : sa_query_float E ":SWE:TIME?" = Ok ?sw,
      H7 : sa_query_float E ":DISP:WIND:TRAC:Y:SCAL?" = Ok ?ad,
      H8 : sa_query_float E ":INP:ATT?" = Ok ?at_,
      H9 : sa_query_float E ":AVER:COUN?" = Ok ?av |- _ =>
        exists {| trace_data := tr; center_hz := c; span_hz := sp;
                  rbw_hz := rb; vbw_hz := vb; ref_level := rl;
                  sweep_time_sec := sw; amp_div := ad; att := at_;
                  avg_num := av |};
        split; [repeat split; assumption |]
    end;
    (split; [reflexivity |]); (split; [reflexivity |]);
    (split; [reflexivity |]);
    cbn [plotted ev_call done failed app trace_data];
    intros ys Hys;
    repeat (destruct Hys as [Hys|Hys]; [now subst ys |]);
    destruct Hys.
Qed.

Lemma X2_witness :
  existsb is_plot_call
    (happened Bench.started
       (after update_plot (Bench.blind Bench.example) Bench.started)) = true /\
  exists r,
    answers (Bench.blind Bench.example) r /\
    os_open (Bench.blind Bench.example) rfi_file_path "a" = None /\
    os_close (Bench.blind Bench.example) = None /\
    appended Bench.started
      (after update_plot (Bench.blind Bench.example) Bench.started)
    = header_text (now (Bench.blind Bench.example)) r ++ trace_text r /\
    forall ys,
      In ys (plotted
               (happened Bench.started
                  (after update_plot (Bench.blind Bench.example)
                     Bench.started))) ->
      ys = trace_data r.
Proof.
  assert (H : existsb is_plot_call
    (happened Bench.started
       (after update_plot (Bench.blind Bench.example) Bench.started)) = true)
    by (vm_compute; reflexivity).
  split; [exact H |].
  exact (X2_plot_only_after_logging (Bench.blind Bench.example)
           Bench.started H).
Defined.

(** ** The axes are created once *)

Lemma axes_created_snoc evs ev :
  axes_created (evs ++ [ev])
  = (axes_created evs + if created_axes ev then 1 else 0)%nat.
Proof.
  unfold axes_created. rewrite filter_app, length_app. cbn [filter].
  now destruct (created_axes ev).
Qed.

Ltac count_axes :=
  unfold axes_counted in *;
  cbn [log ax emit set_rfi set_ax set_pause] in *;
  rewrite ?axes_created_snoc;
  cbn [created_axes ev_call ev_raised done failed];
  repeat match goal with
         | H : ax _ = _ |- _ => rewrite H in *; clear H
         end;
  try match goal with
      | |- context [match ax ?s with _ => _ end] => destruct (ax s)
      end;
  lia.

Lemma update_plot_axes_counted E s :
  axes_counted s -> axes_counted (after update_plot E s).
Proof.
  intros Hinv. unfold after. all_runs update_plot E s; count_axes.
Qed.

Lemma reset_parameters_axes_counted E s :
  axes_counted s -> axes_counted (after reset_parameters E s).
Proof.
  intros Hinv. unfold after.
  remember (reset_parameters E s) as out eqn:Hrun.
  cbv [reset_parameters reset_parameters_try reset_parameters_except
       try_except bind write tell ui] in Hrun.
  repeat next_case Hrun; subst out; cbn [fst snd]; count_axes.
Qed.

Lemma deliver_axes_counted sgs s :
  axes_counted s -> axes_counted (deliver sgs s).
Proof.
  revert s. induction sgs as [|[sg E] sgs IH]; intros s Hinv; [exact Hinv |].
  cbn [deliver]. apply IH. destruct sg; cbn [slot].
  - now apply update_plot_axes_counted.
  - exact Hinv.
  - apply (update_plot_axes_counted E (set_pause false s)). exact Hinv.
  - now apply reset_parameters_axes_counted.
Qed.

(** X3. From start-up on, whatever the signals and the collaborators, the
    axes are created at most once: [add_subplot] returns at most once in
    the whole history, and it has returned exactly when [self.ax] is
    set. A call of [add_subplot] that raised leaves [self.ax] unset, so
    the next tick tries again. *)
Theorem X3_axes_created_once (sgs : list (signal * env)) (file : option string) :
  let s' := deliver sgs (initUI file) in
  (axes_created (log s') <= 1)%nat /\
  (ax s' = None <-> axes_created (log s') = 0%nat) /\
  (ax s' = Some Subplot111 <-> axes_created (log s') = 1%nat).
Proof.
  intros s'.
  assert (Hinv : axes_counted s') by (apply deliver_axes_counted; reflexivity).
  unfold axes_counted in Hinv. rewrite Hinv.
  destruct (ax s') as [[]|]; repeat split; intros; try lia;
    try reflexivity; discriminate.
Qed.

(** ** A reset in full *)

(** The command at position [k] is the one the instrument rejected. *)
Ltac rejected_at E k :=
  exists k; eexists; eexists;
  split; [reflexivity |];
  split;
  [ cbn [forallb firstn];
    repeat match goal with
           | H : sa_write E _ = None |- _ => rewrite H
           end; reflexivity
  | split; [eassumption | split; reflexivity] ].

(** X4. [reset_parameters] changes neither the pause flag, nor the axes,
    nor the log file, and makes no query: its calls are commands to the
    instrument followed by message boxes, and no command is sent once a
    box is shown. Either the instrument takes all nine commands: then
    they are sent in program order and the box that follows is the
    success box. Or one of them raises: then the commands before it were
    taken, it is the last command sent, and the box that follows is the
    error box with the message of the exception. *)
Theorem X4_reset_in_full (E : env) (s : state) :
  let s' := after reset_parameters E s in
  pause s' = pause s /\ ax s' = ax s /\ rfi s' = rfi s /\
  exists sent boxes,
    happened s s' = (sent ++ boxes)%list /\
    forallb is_sa_write sent = true /\
    forallb is_message boxes = true /\
    ((forallb (accepts E) reset_writes = true /\
      sent = map done (map SaWrite reset_writes) /\
      option_map ev_call (hd_error boxes)
      = Some (MsgInformation "Success" "Parameters reset to default values.")) \/
     (exists k cmd e,
        nth_error reset_writes k = Some cmd /\
        forallb (accepts E) (firstn k reset_writes) = true /\
        sa_write E cmd = Some e /\
        sent = (map done (map SaWrite (firstn k reset_writes))
                ++ [failed (SaWrite cmd) e])%list /\
        option_map ev_call (hd_error boxes)
        = Some (MsgCritical "Error"
                  ("Failed to reset parameters: " ++ exc_str e)))).
Proof.
  intros s'. unfold s', after. clear s'.
  remember (reset_parameters E s) as out eqn:Hrun.
  unfold reset_parameters in Hrun. rewrite reset_parameters_try_commands in Hrun.
  cbv [reset_parameters_except try_except bind write tell ui] in Hrun.
  repeat next_case Hrun; subst out; cbn [fst snd]; open_events s;
    (do 3 (split; [reflexivity |]));
    unfold accepts, reset_writes, config_writes;
    eexists; eexists;
    (split;
     [ match goal with
       | |- ?l = (?a ++ ?b)%list =>
           unify a (filter is_sa_write l); unify b (filter is_message l)
       end; reflexivity |]);
    cbn [filter is_sa_write is_message ev_call done failed app];
    (split; [reflexivity |]);
    (split; [reflexivity |]);
    first
      [ left; split;
        [ cbn [forallb];
          repeat match goal with
                 | H : sa_write E _ = _ |- _ => rewrite H; clear H
                 end; reflexivity
        | split; reflexivity ]
      | right;
        first [ rejected_at E 0%nat | rejected_at E 1%nat
              | rejected_at E 2%nat | rejected_at E 3%nat
              | rejected_at E 4%nat | rejected_at E 5%nat
              | rejected_at E 6%nat | rejected_at E 7%nat
              | rejected_at E 8%nat ] ].
Qed.

End CaseFacts.

(* ===================================================================== *)
(** * Properties of LiveSpectrumWidget *)
(* ===================================================================== *)

Module LiveFacts.

Import PyFloat Sys Obs Live.
Local Close Scope string_scope.
Local Open Scope list_scope.

Ltac next_plot_answer H :=
  match type of H with
  | context [match ?X with _ => _ end] =>
      lazymatch X with
      | mpl _ _ => idtac
      end;
      destruct X eqn:?; cbv beta iota zeta in H
  end.

(** The runs of [update_data]. *)
Lemma update_data_runs
    (d : option (list float)) (E : env) (w : widget) :
  let out := update_data d E w in
  data (snd out) = d /\
  ((forall c, mpl E c = None) ->
   out = (Ok tt, {| data := d; calls := calls w ++ map done (frame d) |})) /\
  (forall e, fst out = Raise e ->
   exists k c,
     nth_error (frame d) k = Some c /\ mpl E c = Some e /\
     calls (snd out) = calls w ++ map done (firstn k (frame d)) ++ [failed c e]).
Proof.
  intros out. unfold out. clear out.
  remember (update_data d E w) as o eqn:H.
  cbv [update_data plot_data lbind lcall set_data get_data lret data] in H.
  destruct d as [ys|]; cbv beta iota in H;
    repeat next_plot_answer H; subst o; cbn [fst snd data calls];
    (split; [reflexivity |]);
    (split;
     [ intros Hok;
       try match goal with
           | Hq : mpl E _ = Some _ |- _ => rewrite Hok in Hq; discriminate Hq
           end;
       cbn [frame map app]; rewrite <- ?app_assoc; reflexivity
     | intros e0 He; try discriminate He; injection He as <-;
       first
         [ exists 0%nat; eexists; split; [reflexivity |];
           split; [eassumption |]; cbn [frame firstn map app];
           rewrite <- ?app_assoc; reflexivity
         | exists 1%nat; eexists; split; [reflexivity |];
           split; [eassumption |]; cbn [frame firstn map app];
           rewrite <- ?app_assoc; reflexivity
         | exists 2%nat; eexists; split; [reflexivity |];
           split; [eassumption |]; cbn [frame firstn map app];
           rewrite <- ?app_assoc; reflexivity ] ]).
Qed.

(** X9. [update_data] stores its argument before it redraws and has no
    handler: whatever the plot surface does, the widget holds the new
    data afterwards; when every call succeeds the calls are one frame
    (clear, the curve if there is one, redraw); and when a call raises,
    that exception is the result, the failed call is the last one made,
    and the calls before it are the beginning of the frame. *)
Theorem X9_update_data_stores_then_draws
    (d : option (list float)) (E : env) (w : widget) :
  let out := update_data d E w in
  data (snd out) = d /\
  ((forall c, mpl E c = None) ->
   out = (Ok tt, {| data := d; calls := calls w ++ map done (frame d) |})) /\
  (forall e, fst out = Raise e ->
   exists k c,
     nth_error (frame d) k = Some c /\ mpl E c = Some e /\
     calls (snd out) = calls w ++ map done (firstn k (frame d)) ++ [failed c e]).
Proof. apply update_data_runs. Qed.

Lemma X9_witness :
  (forall c, mpl (Bench.bench Bench.example) c = None) /\
  update_data (Some [of_Z 1]) (Bench.bench Bench.example) blank
  = (Ok tt, {| data := Some [of_Z 1];
               calls := calls blank ++ map done (frame (Some [of_Z 1])) |}).
Proof.
  assert (H : forall c, mpl (Bench.bench Bench.example) c = None)
    by (intros c; reflexivity).
  split; [exact H |].
  exact (proj1 (proj2 (X9_update_data_stores_then_draws
                         (Some [of_Z 1]) (Bench.bench Bench.example) blank)) H).
Defined.

Lemma last_default {A} (a : A) l x y : last (a :: l) x = last (a :: l) y.
Proof.
  revert a. induction l as [|b l IH]; intros a; [reflexivity |].
  change (last (b :: l) x = last (b :: l) y). apply IH.
Qed.

Lemma last_cons {A} (d : A) l x : last (d :: l) x = last l d.
Proof.
  destruct l as [|a l]; [reflexivity |].
  change (last (a :: l) x = last (a :: l) d). apply last_default.
Qed.

(** X10. On a cooperating plot surface, a constructed widget that
    receives a run of updates has made the calls of its constructor and
    then one frame per update, in order, and holds the data of the last
    update. The title and the axis labels are set by the constructor
    only: no update sets them again, although each one clears the axes. *)
Theorem X10_updates_draw_one_frame_each
    (ds : list (option (list float) * env)) (E0 : env) :
  (forall c, mpl E0 c = None) ->
  Forall (fun p => forall c, mpl (snd p) c = None) ds ->
  let w0 := snd (init E0 blank) in
  let out := updates ds w0 in
  init E0 blank = (Ok tt, w0) /\
  fst out = Ok tt /\
  calls (snd out)
  = map done (init_calls ++ flat_map (fun p => frame (fst p)) ds) /\
  data (snd out) = last (map fst ds) None /\
  List.length (filter is_label_call (calls (snd out))) = 3%nat.
Proof.
  intros H0 Hall w0 out.
  assert (Hinit : init E0 blank
                  = (Ok tt, {| data := None; calls := map done init_calls |})).
  { cbv [init lbind lcall set_data blank]. rewrite !H0. reflexivity. }
  assert (Hw0 : w0 = {| data := None; calls := map done init_calls |})
    by (unfold w0; now rewrite Hinit).
  split; [now rewrite Hw0 |].
  assert (Hrun : forall w,
             updates ds w
             = (Ok tt,
                {| data := last (map fst ds) (data w);
                   calls := calls w
                            ++ map done (flat_map (fun p => frame (fst p)) ds) |})).
  { induction Hall as [|[d E] ds Hd Hall IH]; intros w.
    - cbn. rewrite app_nil_r. now destruct w.
    - cbn [updates].
      rewrite (proj1 (proj2 (update_data_runs d E w)) Hd).
      rewrite IH. cbn [data calls map fst flat_map].
      rewrite map_app, <- app_assoc, last_cons. reflexivity. }
  unfold out. rewrite Hrun, Hw0. cbn [fst snd data calls].
  split; [reflexivity |]. split; [now rewrite map_app |].
  split; [reflexivity |].
  rewrite filter_app, length_app.
  assert (Hnone : forall l : list (option (list float) * env),
             filter is_label_call
               (map done (flat_map (fun p => frame (fst p)) l)) = []).
  { induction l as [|[[ys|] E] l IHl]; [reflexivity | |];
      cbn [flat_map fst frame app map filter is_label_call ev_call done];
      exact IHl. }
  rewrite Hnone. reflexivity.
Qed.

Lemma X10_witness :
  (forall c, mpl (Bench.bench Bench.example) c = None) /\
  Forall (fun p => forall c, mpl (snd p) c = None)
    [ (Some [of_Z 1], Bench.bench Bench.example);
      (None, Bench.bench Bench.example);
      (Some [of_Z 2; of_Z 3], Bench.bench Bench.example) ] /\
  data
    (snd
       (updates
          [ (Some [of_Z 1], Bench.bench Bench.example);
            (None, Bench.bench Bench.example);
            (Some [of_Z 2; of_Z 3], Bench.bench Bench.example) ]
          (snd (init (Bench.bench Bench.example) blank))))
  = last
      (map fst
         [ (Some [of_Z 1], Bench.bench Bench.example);
           (None, Bench.bench Bench.example);
           (Some [of_Z 2; of_Z 3], Bench.bench Bench.example) ]) None.
Proof.
  assert (H0 : forall c, mpl (Bench.bench Bench.example) c = None)
    by (intros c; reflexivity).
  assert (H1 : Forall (fun p => forall c, mpl (snd p) c = None)
    [ (Some [of_Z 1], Bench.bench Bench.example);
      (None, Bench.bench Bench.example);
      (Some [of_Z 2; of_Z 3], Bench.bench Bench.example) ])
    by (repeat constructor).
  repeat (split; [assumption |]).
  exact (proj1 (proj2 (proj2 (proj2
    (X10_updates_draw_one_frame_each _ _ H0 H1))))).
Defined.

End LiveFacts.

(* ===================================================================== *)
(** * Properties of the widget from start-up on *)
(* ===================================================================== *)

Module GuiFacts.

Import Str StrFacts PyFloat Sys App Obs TickFacts LoopFacts Watch Gui.

(** ** The image export *)

Ltac next_gui_answer H :=
  match type of H with
  | context [match ?X with _ => _ end] =>
      lazymatch X with
      | get_save_file_name _ => idtac
      | savefig _ _ => idtac
      | String.eqb _ "" => idtac
      end;
      destruct X eqn:?; cbv beta iota zeta in H
  end.

Ltac save_runs X w :=
  let out := fresh "out" in
  let H := fresh "Hrun" in
  remember (save_plot_image X w) as out eqn:H;
  cbv [save_plot_image gtry gbind gask gtell gret lift ui] in H;
  repeat next_gui_answer H;
  subst out; cbn [fst snd obj with_obj gemit has_pause has_sa timer glog].

Lemma ghappened_app w w' evs :
  glog w' = (glog w ++ evs)%list -> ghappened w w' = evs.
Proof. unfold ghappened. intros ->. apply skipn_length_app. Qed.

Ltac open_gui_events :=
  match goal with
  | |- context [happened ?s ?st] =>
      let H := fresh "Hlog" in
      eassert (H : log st = (log s ++ _)%list)
        by (cbn [log emit];
            first [ solve [symmetry; apply app_nil_r] | reflexivity ]);
      rewrite (happened_app s st _ H); clear H
  end;
  match goal with
  | |- context [ghappened ?w ?w'] =>
      let H := fresh "Hglog" in
      eassert (H : glog w' = (glog w ++ _)%list)
        by (cbn [glog gemit with_obj];
            first [ solve [symmetry; apply app_nil_r]
                  | rewrite <- ?app_assoc; reflexivity ]);
      rewrite (ghappened_app w w' _ H); clear H
  end.

(** X13. [save_plot_image] returns normally whatever the dialog and the
    figure do, and leaves the pause flag, the axes, the log file, the
    session and the timer alone. It shows at most one message box, the
    success box exactly when a path was chosen and [savefig] returned;
    [savefig] is only ever called with the chosen, non-empty path; and
    when the dialog is cancelled nothing happens but the dialog. *)
Theorem X13_save_plot_image (X : genv) (w : app) :
  let out := save_plot_image X w in
  let w' := snd out in
  fst out = Ok tt /\
  pause (obj w') = pause (obj w) /\ ax (obj w') = ax (obj w) /\
  rfi (obj w') = rfi (obj w) /\
  has_pause w' = has_pause w /\ has_sa w' = has_sa w /\ timer w' = timer w /\
  forallb is_message (happened (obj w) (obj w')) = true /\
  (List.length (happened (obj w) (obj w')) <= 1)%nat /\
  (existsb is_success_box (happened (obj w) (obj w')) = true <->
   exists path,
     get_save_file_name X = Ok path /\ path <> "" /\ savefig X path = None) /\
  (forall path,
      In (FigSavefig path) (map gev_call (ghappened w w')) ->
      get_save_file_name X = Ok path /\ path <> "") /\
  (get_save_file_name X = Ok "" ->
   happened (obj w) (obj w') = [] /\
   map gev_call (ghappened w w')
   = [GetSaveFileName "Save Plot Image" ""
        "PNG Image (*.png);;JPEG Image (*.jpg *.jpeg);;All Files (*.*)"]).
Proof.
  intros out w'. unfold w', out. clear w' out.
  save_runs X w; open_gui_events;
    repeat match goal with
           | H : String.eqb _ "" = true |- _ =>
               apply String.eqb_eq in H; subst
           | H : String.eqb _ "" = false |- _ =>
               apply String.eqb_neq in H
           end;
    (do 9 (split; [first [reflexivity | cbn; lia] |]));
    (split;
     [ cbn [existsb is_success_box ev_call done orb]; split;
       [ intros Hs;
         first [ discriminate Hs
               | eexists; split; [reflexivity | split; assumption] ]
       | intros (p & Hp & Hne & Hsf);
         first [ discriminate Hp
               | injection Hp as <-;
                 first [ reflexivity | congruence | now elim Hne ] ] ]
     |]);
    (split;
     [ cbn [map gev_call gdone gfailed List.app]; intros p Hin;
       repeat (destruct Hin as [Hin|Hin];
               [ first [ discriminate Hin
                       | injection Hin as <-; split; [reflexivity | assumption] ]
               |]);
       destruct Hin
     | intros Hq;
       first [ discriminate Hq
             | split; reflexivity
             | injection Hq as Hq; congruence ] ]).
Qed.

Lemma X13_witness :
  get_save_file_name
    {| core := Bench.bench Bench.example; resource_manager := None;
       open_resource := fun _ => None; get_save_file_name := Ok "";
       savefig := fun _ => None |} = Ok "" /\
  happened (obj (fresh None))
    (obj (snd (save_plot_image
                 {| core := Bench.bench Bench.example; resource_manager := None;
                    open_resource := fun _ => None; get_save_file_name := Ok "";
                    savefig := fun _ => None |} (fresh None))))
  = [].
Proof.
  split; [reflexivity |].
  exact (proj1 (proj2 (proj2 (proj2 (proj2 (proj2 (proj2 (proj2 (proj2
    (proj2 (proj2 (proj2
      (X13_save_plot_image
         {| core := Bench.bench Bench.example; resource_manager := None;
            open_resource := fun _ => None; get_save_file_name := Ok "";
            savefig := fun _ => None |} (fresh None))))))))))))
    eq_refl)).
Defined.

(** ** After a failed connection *)






End GuiFacts.
